(** * StockTracker: the technical-indicator engine of [utils/technical_indicators.py]

    A shallow embedding of the indicator calculators and of the chart
    composition function [create_technical_chart], with the properties the
    specification states about them.

    Numbers.  The program computes with IEEE double precision through pandas.
    Here a double is a value of [float64]: not-a-number, the two infinities,
    or a finite number carried as an exact rational kept in lowest terms.
    The special values follow IEEE 754 (division by zero, [inf - inf],
    comparisons with NaN); rounding, overflow and the sign of zero are
    abstracted away. *)

From Stdlib Require Import QArith Qreduction Qabs Qminmax Lqa String.
From stdpp Require Import base option list gmap pretty.

Open Scope string_scope.
Open Scope Q_scope.

(** ** Double-precision values *)

Module F.

Inductive float64 : Type :=
| NaN
| PInf
| NInf
| Fin (q : Q).

Definition of_Z (z : Z) : float64 := Fin (inject_Z z).
Definition of_nat (n : nat) : float64 := of_Z (Z.of_nat n).

Definition isnan (x : float64) : bool :=
  match x with NaN => true | _ => false end.

Definition is_finite (x : float64) : bool :=
  match x with Fin _ => true | _ => false end.

Definition neg (x : float64) : float64 :=
  match x with
  | NaN => NaN
  | PInf => NInf
  | NInf => PInf
  | Fin q => Fin (Qred (- q))
  end.

Definition add (x y : float64) : float64 :=
  match x, y with
  | NaN, _ | _, NaN => NaN
  | PInf, NInf | NInf, PInf => NaN
  | PInf, _ | _, PInf => PInf
  | NInf, _ | _, NInf => NInf
  | Fin a, Fin b => Fin (Qred (a + b))
  end.

Definition sub (x y : float64) : float64 :=
  match x, y with
  | NaN, _ | _, NaN => NaN
  | PInf, PInf | NInf, NInf => NaN
  | PInf, _ | _, NInf => PInf
  | NInf, _ | _, PInf => NInf
  | Fin a, Fin b => Fin (Qred (a - b))
  end.

(** Sign of a finite number: [Gt], [Eq] or [Lt] as it compares with zero. *)
Definition sgn (q : Q) : comparison := 0 ?= q.

Definition inf_of (c : comparison) : float64 :=
  match c with
  | Lt => PInf
  | Gt => NInf
  | Eq => NaN
  end.

Definition flip (c : comparison) : comparison := CompOpp c.

Definition mul (x y : float64) : float64 :=
  match x, y with
  | NaN, _ | _, NaN => NaN
  | PInf, PInf | NInf, NInf => PInf
  | PInf, NInf | NInf, PInf => NInf
  | PInf, Fin b | Fin b, PInf => inf_of (sgn b)
  | NInf, Fin b | Fin b, NInf => inf_of (flip (sgn b))
  | Fin a, Fin b => Fin (Qred (a * b))
  end.

(** Division.  A finite number divided by zero is an infinity of its sign,
    and [0/0] is NaN, as numpy computes them (with a warning, no exception).
    An infinity divided by a finite number takes the sign of the quotient;
    zero counts as positive there. *)
Definition div (x y : float64) : float64 :=
  match x, y with
  | NaN, _ | _, NaN => NaN
  | (PInf | NInf), (PInf | NInf) => NaN
  | Fin _, (PInf | NInf) => Fin 0
  | PInf, Fin b => match sgn b with Gt => NInf | _ => PInf end
  | NInf, Fin b => match sgn b with Gt => PInf | _ => NInf end
  | Fin a, Fin b =>
      if Qeq_bool b 0 then inf_of (sgn a) else Fin (Qred (a / b))
  end.

Definition abs (x : float64) : float64 :=
  match x with
  | NaN => NaN
  | PInf | NInf => PInf
  | Fin q => Fin (Qred (Qabs q))
  end.

(** Comparisons; every comparison with NaN is false. *)
Definition ltb (x y : float64) : bool :=
  match x, y with
  | NaN, _ | _, NaN => false
  | _, NInf => false
  | NInf, _ => true
  | PInf, _ => false
  | _, PInf => true
  | Fin a, Fin b => negb (Qle_bool b a)
  end.

Definition leb (x y : float64) : bool :=
  match x, y with
  | NaN, _ | _, NaN => false
  | NInf, _ => true
  | _, NInf => false
  | _, PInf => true
  | PInf, _ => false
  | Fin a, Fin b => Qle_bool a b
  end.

Definition eqb (x y : float64) : bool :=
  match x, y with
  | PInf, PInf | NInf, NInf => true
  | Fin a, Fin b => Qeq_bool a b
  | _, _ => false
  end.

Definition gtb (x y : float64) : bool := ltb y x.
Definition geb (x y : float64) : bool := leb y x.

(** Square root of a rational, approximated from below to within [2^-52].
    The program's [sqrt] is the correctly rounded double; the results below
    use of it only that it is not negative. *)
Definition Qsqrt (q : Q) : Q :=
  Qred (Z.sqrt (Qnum q * Z.pos (Qden q) * 2 ^ 104) # (Qden q * 2 ^ 52)).

Definition sqrt (x : float64) : float64 :=
  match x with
  | NaN | NInf => NaN
  | PInf => PInf
  | Fin q => if negb (Qle_bool 0 q) then NaN else Fin (Qsqrt q)
  end.

End F.

Export F(float64, NaN, PInf, NInf, Fin).

(** ** Exceptions *)

Inductive exn : Type :=
| IndexError
| ValueError
| PlotlyError.

(** A computation that may raise. *)
Definition result (A : Type) : Type := exn + A.

#[global] Instance result_ret : MRet result := fun _ a => inr a.
#[global] Instance result_bind : MBind result := fun _ _ k m =>
  match m with
  | inl e => inl e
  | inr a => k a
  end.

Definition raise {A : Type} (e : exn) : result A := inl e.

(** ** The pandas operations the calculators use

    A [Series] is the list of its values; the operations below follow the
    documented behaviour of pandas for the arguments the program passes
    ([min_periods] left to its default, [adjust=False], [skipna] left on). *)

Module Pd.

Abbreviation Series := (list float64).

(** [s.iloc[i]] for [0 <= i]. *)
Definition iloc {A : Type} (s : list A) (i : nat) : result A :=
  match s !! i with
  | Some x => inr x
  | None => raise IndexError
  end.

(** [s.iloc[-1]]. *)
Definition iloc_last {A : Type} (s : list A) : result A :=
  match last s with
  | Some x => inr x
  | None => raise IndexError
  end.

(** [s.iloc[i] = v]: positional assignment cannot enlarge the series. *)
Definition iloc_set {A : Type} (s : list A) (i : nat) (v : A) : result (list A) :=
  if decide (i < length s)%nat then inr (<[i := v]> s) else raise IndexError.

(** [s.shift()]: every value moves one place down, NaN enters at the top. *)
Definition shift (s : Series) : Series := take (length s) (NaN :: s).

(** [s.diff()]. *)
Definition diff (s : Series) : Series := zip_with F.sub s (shift s).

(** [s.where(cond, other)]. *)
Definition where_ (s : Series) (cond : list bool) (other : float64) : Series :=
  zip_with (fun x (c : bool) => if c then x else other) s cond.

Definition finite_value (x : float64) : option Q :=
  match x with
  | Fin q => Some q
  | _ => None
  end.

(** The values of a window when all of them are finite.  The rolling
    aggregations count infinities as missing values, and with [min_periods]
    equal to the window one missing value makes the result NaN. *)
Definition finite_values (xs : list float64) : option (list Q) :=
  mapM finite_value xs.

(** The [w] values that end at position [i]. *)
Definition window_at (w i : nat) (s : Series) : Series :=
  take w (drop (S i - w) s).

Definition rolling (w : nat) (agg : list Q -> float64) (s : Series) : Series :=
  imap (fun i _ =>
          if decide (w <= S i)%nat
          then from_option agg NaN (finite_values (window_at w i s))
          else NaN) s.

Definition Qsum (qs : list Q) : Q := foldr Qplus 0 qs.

Definition mean (qs : list Q) : float64 :=
  F.div (Fin (Qsum qs)) (F.of_nat (length qs)).

Definition minimum (qs : list Q) : float64 :=
  match qs with
  | [] => NaN
  | q :: qs' => Fin (foldr Qmin q qs')
  end.

Definition maximum (qs : list Q) : float64 :=
  match qs with
  | [] => NaN
  | q :: qs' => Fin (foldr Qmax q qs')
  end.

(** Sample standard deviation ([ddof=1]); NaN for fewer than two values. *)
Definition sq_dev (qs : list Q) : Q :=
  let m := Qsum qs / inject_Z (Z.of_nat (length qs)) in
  Qsum (map (fun q => (q - m) * (q - m)) qs).

Definition std (qs : list Q) : float64 :=
  F.sqrt (F.div (Fin (sq_dev qs)) (F.of_nat (length qs - 1))).

Definition rolling_mean (w : nat) : Series -> Series := rolling w mean.
Definition rolling_min (w : nat) : Series -> Series := rolling w minimum.
Definition rolling_max (w : nat) : Series -> Series := rolling w maximum.
Definition rolling_std (w : nat) : Series -> Series := rolling w std.

(** [s.ewm(span=span, adjust=False).mean()].  The state is the running
    weighted mean and the weight of the past; a missing value leaves the
    mean as it is and ages the past once more. *)
Definition ewm_step (alpha : Q) (st : float64 * Q) (cur : float64) : float64 * Q :=
  let '(weighted, old_wt) := st in
  if F.isnan weighted then
    (if F.isnan cur then weighted else cur, old_wt)
  else
    let old_wt := old_wt * (1 - alpha) in
    if F.isnan cur then (weighted, old_wt)
    else if F.eqb weighted cur then (weighted, 1)
    else (F.div (F.add (F.mul (Fin old_wt) weighted) (F.mul (Fin alpha) cur))
                (Fin (old_wt + alpha)), 1).

Fixpoint ewm_run (alpha : Q) (st : float64 * Q) (s : Series) : Series :=
  match s with
  | [] => []
  | cur :: s' =>
      let st' := ewm_step alpha st cur in
      st'.1 :: ewm_run alpha st' s'
  end.

(** The window code of pandas takes an infinity for a missing value: it
    turns it into NaN before the exponential mean is computed. *)
Definition prep_value (x : float64) : float64 :=
  if F.is_finite x then x else NaN.

(** After a gap of missing values the past has weight [(1 - alpha)^k] and
    the new value weight [alpha], as pandas documents for [adjust=False]. *)
Definition ewm_mean (span : nat) (s : Series) : result Series :=
  if decide (span < 1)%nat then raise ValueError
  else
    let alpha := 2 / inject_Z (Z.of_nat span + 1) in
    match prep_value <$> s with
    | [] => mret []
    | x0 :: s' => mret (x0 :: ewm_run alpha (x0, 1) s')
    end.

(** [pd.concat([a, b, c], axis=1).max(axis=1)]: the row maximum, missing
    values skipped. *)
Definition nanmax (x y : float64) : float64 :=
  if F.isnan x then y
  else if F.isnan y then x
  else if F.ltb x y then y else x.

Definition row_max3 (a b c : Series) : Series :=
  zip_with nanmax (zip_with nanmax a b) c.

End Pd.


(** ** The price data *)

(** One row of the OHLCV frame the data provider returns. *)
Record bar : Type := Bar_ {
  Date : Z;
  Open : float64;
  High : float64;
  Low : float64;
  Close : float64;
  Volume : Z;
}.

(** A [DataFrame] is the list of its rows; [column <$> data] is
    [data[column]]. *)
Abbreviation DataFrame := (list bar).

(** ** Computations that record the calculators they invoke *)

Inductive calculator : Type :=
| SMA
| EMA
| Bollinger
| RSI
| MACD
| Stochastic
| ATR
| OBV.

#[global] Instance calculator_eq_dec : EqDecision calculator.
Proof. solve_decision. Defined.

(** A chart-building computation: the calculators invoked so far, in order,
    and the value or the exception raised. *)
Definition M (A : Type) : Type := list calculator * result A.

#[global] Instance M_ret : MRet M := fun _ a => ([], inr a).
#[global] Instance M_bind : MBind M := fun _ _ k m =>
  match m with
  | (log, inl e) => (log, inl e)
  | (log, inr a) =>
      match k a with
      | (log', r) => ((log ++ log')%list, r)
      end
  end.

Definition lift {A : Type} (r : result A) : M A := ([], r).

(** [invoke c r]: calculator [c] runs and gives [r]. *)
Definition invoke {A : Type} (c : calculator) (r : result A) : M A := ([c], r).

(** ** The plotly figure *)

Module Plotly.

Inductive trace_data : Type :=
| Candlestick (open high low close : Pd.Series)
| Bar (y : Pd.Series) (marker_color : list string)
| Scatter (y : Pd.Series).

Record trace : Type := Trace {
  t_name : string;
  t_x : list Z;
  t_data : trace_data;
}.

Record annotation : Type := Annotation {
  a_text : string;
  a_y : float64;
}.

(** A figure made by [make_subplots] with one column: the number of rows,
    their height weights, the traces with the row each was added to, the
    axis titles by row and the annotations of the layout. *)
Record figure : Type := Figure {
  rows : nat;
  row_heights : list float64;
  traces : list (trace * nat);
  yaxis_title : gmap nat string;
  xaxis_title : gmap nat string;
  annotations : list annotation;
}.

(** [make_subplots(rows=n, cols=1, shared_xaxes=True, row_heights=heights,
    subplot_titles=titles)]: the weights must be as many as the rows; each
    title is an annotation, the first at the top of the figure (the program
    gives one title). *)
Definition make_subplots (n : nat) (heights : list float64) (titles : list string)
  : result figure :=
  if bool_decide (1 <= n)%nat && bool_decide (length heights = n)
  then mret (Figure n heights [] ∅ ∅
               (match titles with
                | [] => []
                | title :: _ => [Annotation title (Fin 1)]
                end))
  else raise ValueError.

Definition in_grid (fig : figure) (row : nat) : bool :=
  bool_decide (1 <= row)%nat && bool_decide (row <= rows fig)%nat.

Definition add_trace (fig : figure) (t : trace) (row : nat) : result figure :=
  if in_grid fig row
  then mret (Figure (rows fig) (row_heights fig) ((traces fig ++ [(t, row)])%list)
               (yaxis_title fig) (xaxis_title fig) (annotations fig))
  else raise PlotlyError.

Definition update_yaxes (fig : figure) (title_text : string) (row : nat) : result figure :=
  if in_grid fig row
  then mret (Figure (rows fig) (row_heights fig) (traces fig)
               (<[row := title_text]> (yaxis_title fig)) (xaxis_title fig)
               (annotations fig))
  else raise PlotlyError.

Definition update_xaxes (fig : figure) (title_text : string) (row : nat) : result figure :=
  if in_grid fig row
  then mret (Figure (rows fig) (row_heights fig) (traces fig)
               (yaxis_title fig) (<[row := title_text]> (xaxis_title fig))
               (annotations fig))
  else raise PlotlyError.

(** [fig.update_layout(annotations=...)] replaces the annotations. *)
Definition update_annotations (fig : figure) (anns : list annotation) : figure :=
  Figure (rows fig) (row_heights fig) (traces fig)
    (yaxis_title fig) (xaxis_title fig) anns.

End Plotly.

Import Plotly.

(** ** The indicator calculators *)

(** Python list indexing [l[i]] for [0 <= i]. *)
Definition py_index {A : Type} (l : list A) (i : nat) : result A :=
  match l !! i with
  | Some x => inr x
  | None => raise IndexError
  end.

(** [for i in idxs: s = body s i]. *)
Fixpoint for_each {St : Type} (idxs : list nat) (body : St -> nat -> result St) (s : St)
  : result St :=
  match idxs with
  | [] => mret s
  | i :: idxs' => s' ← body s i; for_each idxs' body s'
  end.

Definition zero : float64 := Fin 0.
Definition hundred : float64 := Fin 100.

(** The local variables of [calculate_rsi], one definition each. *)
Section rsi.
Variables (data : DataFrame) (window : nat) (column : bar -> float64).

Definition rsi_delta : Pd.Series := Pd.diff (column <$> data).
Definition rsi_gain : Pd.Series :=
  Pd.where_ rsi_delta ((fun d => F.gtb d zero) <$> rsi_delta) zero.
Definition rsi_loss : Pd.Series :=
  F.neg <$> Pd.where_ rsi_delta ((fun d => F.ltb d zero) <$> rsi_delta) zero.
Definition rsi_avg_gain : Pd.Series := Pd.rolling_mean window rsi_gain.
Definition rsi_avg_loss : Pd.Series := Pd.rolling_mean window rsi_loss.
Definition rsi_rs : Pd.Series := zip_with F.div rsi_avg_gain rsi_avg_loss.

Definition rsi_of_rs (rs : float64) : float64 :=
  F.sub hundred (F.div hundred (F.add (Fin 1) rs)).

Definition calculate_rsi : Pd.Series := rsi_of_rs <$> rsi_rs.
End rsi.

Definition calculate_macd (data : DataFrame) (fast_period slow_period signal_period : nat)
    (column : bar -> float64) : result (Pd.Series * Pd.Series * Pd.Series) :=
  fast_ema ← Pd.ewm_mean fast_period (column <$> data);
  slow_ema ← Pd.ewm_mean slow_period (column <$> data);
  let macd_line := zip_with F.sub fast_ema slow_ema in
  signal_line ← Pd.ewm_mean signal_period macd_line;
  let histogram := zip_with F.sub macd_line signal_line in
  mret (macd_line, signal_line, histogram).

(** The local variables of [calculate_stochastic]. *)
Section stochastic.
Variables (data : DataFrame) (k_period d_period smooth_k : nat).

Definition stoch_low_min : Pd.Series := Pd.rolling_min k_period (Low <$> data).
Definition stoch_high_max : Pd.Series := Pd.rolling_max k_period (High <$> data).
Definition stoch_fast_k : Pd.Series :=
  F.mul hundred <$>
    zip_with F.div (zip_with F.sub (Close <$> data) stoch_low_min)
                   (zip_with F.sub stoch_high_max stoch_low_min).
Definition stoch_k : Pd.Series := Pd.rolling_mean smooth_k stoch_fast_k.
Definition stoch_d : Pd.Series := Pd.rolling_mean d_period stoch_k.

Definition calculate_stochastic : Pd.Series * Pd.Series := (stoch_k, stoch_d).
End stochastic.

(** The local variables of [calculate_atr]. *)
Section atr.
Variables (data : DataFrame) (window : nat).

Definition atr_high_low : Pd.Series := zip_with F.sub (High <$> data) (Low <$> data).
Definition atr_high_close : Pd.Series :=
  F.abs <$> zip_with F.sub (High <$> data) (Pd.shift (Close <$> data)).
Definition atr_low_close : Pd.Series :=
  F.abs <$> zip_with F.sub (Low <$> data) (Pd.shift (Close <$> data)).
Definition atr_true_range : Pd.Series :=
  Pd.row_max3 atr_high_low atr_high_close atr_low_close.

Definition calculate_atr : Pd.Series := Pd.rolling_mean window atr_true_range.
End atr.

(** One turn of the loop of [calculate_on_balance_volume]. *)
Definition obv_body (data : DataFrame) (obv : Pd.Series) (i : nat) : result Pd.Series :=
  close_i ← Pd.iloc (Close <$> data) i;
  close_p ← Pd.iloc (Close <$> data) (i - 1);
  if F.gtb close_i close_p then
    prev ← Pd.iloc obv (i - 1);
    vol ← Pd.iloc (Volume <$> data) i;
    Pd.iloc_set obv i (F.add prev (F.of_Z vol))
  else if F.ltb close_i close_p then
    prev ← Pd.iloc obv (i - 1);
    vol ← Pd.iloc (Volume <$> data) i;
    Pd.iloc_set obv i (F.sub prev (F.of_Z vol))
  else
    prev ← Pd.iloc obv (i - 1);
    Pd.iloc_set obv i prev.

Definition calculate_on_balance_volume (data : DataFrame) : result Pd.Series :=
  let obv := replicate (length data) NaN in
  obv ← Pd.iloc_set obv 0 zero;
  for_each (seq 1 (length data - 1)) (obv_body data) obv.

(** ** Adding an indicator to a figure *)

Definition scatter (name : string) (x : list Z) (y : Pd.Series) : trace :=
  Trace name x (Scatter y).

(** The series [add_moving_average] and [add_exponential_moving_average]
    compute. *)
Definition sma_ma (data : DataFrame) (window : nat) (column : bar -> float64)
  : Pd.Series :=
  Pd.rolling_mean window (column <$> data).

Definition ema_ema (data : DataFrame) (window : nat) (column : bar -> float64)
  : result Pd.Series :=
  Pd.ewm_mean window (column <$> data).

Definition add_moving_average (fig : figure) (data : DataFrame) (window : nat)
    (column : bar -> float64) (name : option string) (row : nat) : M figure :=
  ma ← invoke SMA (mret (sma_ma data window column));
  let name := default (pretty window +:+ "-day MA") name in
  lift (add_trace fig (scatter name (Date <$> data) ma) row).

Definition add_exponential_moving_average (fig : figure) (data : DataFrame) (window : nat)
    (column : bar -> float64) (name : option string) (row : nat) : M figure :=
  ema ← invoke EMA (ema_ema data window column);
  let name := default (pretty window +:+ "-day EMA") name in
  lift (add_trace fig (scatter name (Date <$> data) ema) row).

(** The three series [add_bollinger_bands] computes. *)
Section bollinger.
Variables (data : DataFrame) (window : nat) (num_std : float64)
          (column : bar -> float64).

Definition boll_ma : Pd.Series := Pd.rolling_mean window (column <$> data).
Definition boll_std : Pd.Series := Pd.rolling_std window (column <$> data).
Definition boll_upper_band : Pd.Series :=
  zip_with F.add boll_ma ((fun s => F.mul s num_std) <$> boll_std).
Definition boll_lower_band : Pd.Series :=
  zip_with F.sub boll_ma ((fun s => F.mul s num_std) <$> boll_std).
End bollinger.

Definition add_bollinger_bands (fig : figure) (data : DataFrame) (window : nat)
    (num_std : float64) (column : bar -> float64) (row : nat) : M figure :=
  '(ma, upper_band, lower_band) ←
    invoke Bollinger
      (mret (boll_ma data window column,
             boll_upper_band data window num_std column,
             boll_lower_band data window num_std column));
  let x := Date <$> data in
  fig ← lift (add_trace fig (scatter (pretty window +:+ "-day MA") x ma) row);
  fig ← lift (add_trace fig (scatter "Upper Band" x upper_band) row);
  fig ← lift (add_trace fig (scatter "Lower Band" x lower_band) row);
  fig ← lift (add_trace fig (scatter "Upper Band" x upper_band) row);
  lift (add_trace fig (scatter "Lower Band" x lower_band) row).

(** A horizontal guide line from the first date to the last. *)
Definition level_line (fig : figure) (data : DataFrame) (name : string) (level : Z)
    (row : nat) : result figure :=
  first ← Pd.iloc (Date <$> data) 0;
  last ← Pd.iloc_last (Date <$> data);
  add_trace fig (scatter name [first; last] [F.of_Z level; F.of_Z level]) row.

Definition add_rsi (fig : figure) (data : DataFrame) (window : nat)
    (column : bar -> float64) (row : nat) : M figure :=
  rsi ← invoke RSI (mret (calculate_rsi data window column));
  fig ← lift (add_trace fig
                (scatter ("RSI (" +:+ pretty window +:+ ")") (Date <$> data) rsi) row);
  fig ← lift (level_line fig data "Overbought" 70 row);
  fig ← lift (level_line fig data "Oversold" 30 row);
  fig ← lift (level_line fig data "Middle" 50 row);
  lift (update_yaxes fig "RSI" row).

Definition add_macd (fig : figure) (data : DataFrame)
    (fast_period slow_period signal_period : nat) (column : bar -> float64)
    (row : nat) : M figure :=
  '(macd_line, signal_line, histogram) ←
    invoke MACD (calculate_macd data fast_period slow_period signal_period column);
  let x := Date <$> data in
  fig ← lift (add_trace fig (scatter "MACD" x macd_line) row);
  fig ← lift (add_trace fig (scatter "Signal" x signal_line) row);
  let colors :=
    (fun val => if F.geb val zero then "#43A047" else "#E53935") <$> histogram in
  fig ← lift (add_trace fig (Trace "Histogram" x (Bar histogram colors)) row);
  lift (update_yaxes fig "MACD" row).

Definition add_stochastic (fig : figure) (data : DataFrame)
    (k_period d_period smooth_k : nat) (row : nat) : M figure :=
  '(k, d) ← invoke Stochastic (mret (calculate_stochastic data k_period d_period smooth_k));
  let x := Date <$> data in
  fig ← lift (add_trace fig (scatter "%K" x k) row);
  fig ← lift (add_trace fig (scatter "%D" x d) row);
  fig ← lift (level_line fig data "Overbought" 80 row);
  fig ← lift (level_line fig data "Oversold" 20 row);
  lift (update_yaxes fig "Stochastic" row).

Definition add_atr (fig : figure) (data : DataFrame) (window : nat) (row : nat)
  : M figure :=
  atr ← invoke ATR (mret (calculate_atr data window));
  fig ← lift (add_trace fig
                (scatter ("ATR (" +:+ pretty window +:+ ")") (Date <$> data) atr) row);
  lift (update_yaxes fig "ATR" row).

Definition add_obv (fig : figure) (data : DataFrame) (row : nat) : M figure :=
  obv ← invoke OBV (calculate_on_balance_volume data);
  let x := Date <$> data in
  fig ← lift (add_trace fig (scatter "OBV" x obv) row);
  obv_ema ← lift (Pd.ewm_mean 20 obv);
  fig ← lift (add_trace fig (scatter "OBV EMA (20)" x obv_ema) row);
  lift (update_yaxes fig "OBV" row).

(** ** The chart *)

(** ['name' in indicators]. *)
Definition requested (name : string) (indicators : list string) : bool :=
  bool_decide (name ∈ indicators).

(** Lines 620 to 632: one row for the price chart and one for each of
    [rsi], [macd], [stoch], [atr], [obv] found in the list. *)
Definition count_subplots (indicators : list string) : nat :=
  let subplot_count := 1%nat in
  let subplot_count :=
    if requested "rsi" indicators then S subplot_count else subplot_count in
  let subplot_count :=
    if requested "macd" indicators then S subplot_count else subplot_count in
  let subplot_count :=
    if requested "stoch" indicators then S subplot_count else subplot_count in
  let subplot_count :=
    if requested "atr" indicators then S subplot_count else subplot_count in
  let subplot_count :=
    if requested "obv" indicators then S subplot_count else subplot_count in
  subplot_count.

(** Lines 634 to 640: the height weights of the rows. *)
Definition subplot_heights (subplot_count : nat) : list float64 :=
  let heights := [Fin (1 # 2)] in
  let remaining_height := Fin (1 # 2) in
  if decide (1 < subplot_count)%nat then
    let indicator_height := F.div remaining_height (F.of_nat (subplot_count - 1)) in
    (heights ++ replicate (subplot_count - 1) indicator_height)%list
  else heights.

(** The label of a sub-panel, placed from the row number and its weight. *)
Definition annotate (fig : figure) (text : string) (current_row : nat)
    (heights : list float64) : result figure :=
  h ← py_index heights (current_row - 1);
  let y := F.sub (Fin 1) (F.mul (F.sub (F.of_nat current_row) (Fin (3 # 2))) h) in
  mret (update_annotations fig [Annotation text y]).

(** One of the five blocks [if name in indicators: current_row += 1; ...]:
    the state is the figure and [current_row]. *)
Definition sub_panel (indicators : list string) (name : string)
    (add : figure -> nat -> M figure) (text : string) (heights : list float64)
    (st : figure * nat) : M (figure * nat) :=
  if requested name indicators then
    let current_row := S st.2 in
    fig ← add st.1 current_row;
    fig ← lift (annotate fig text current_row heights);
    mret (fig, current_row)
  else mret st.

Definition create_technical_chart (data : DataFrame) (indicators : option (list string))
  : M figure :=
  let indicators := default ["sma"; "ema"; "bollinger"] indicators in
  let subplot_count := count_subplots indicators in
  let heights := subplot_heights subplot_count in
  fig ← lift (make_subplots subplot_count heights ["Price Chart"]);
  let x := Date <$> data in
  fig ← lift (add_trace fig
                (Trace "Price" x
                   (Candlestick (Open <$> data) (High <$> data)
                                (Low <$> data) (Close <$> data))) 1);
  let colors :=
    (fun b => if F.geb (Close b) (Open b) then "#26A69A" else "#EF5350") <$> data in
  fig ← lift (add_trace fig
                (Trace "Volume" x (Bar ((F.of_Z ∘ Volume) <$> data) colors)) 1);
  let current_row := 1%nat in
  fig ← (if requested "sma" indicators then
           fig ← add_moving_average fig data 50 Close None 1;
           add_moving_average fig data 200 Close None 1
         else mret fig);
  fig ← (if requested "ema" indicators then
           add_exponential_moving_average fig data 20 Close None 1
         else mret fig);
  fig ← (if requested "bollinger" indicators then
           add_bollinger_bands fig data 20 (Fin 2) Close 1
         else mret fig);
  st ← sub_panel indicators "rsi"
         (fun fig row => add_rsi fig data 14 Close row) "RSI (14)" heights
         (fig, current_row);
  st ← sub_panel indicators "macd"
         (fun fig row => add_macd fig data 12 26 9 Close row) "MACD" heights st;
  st ← sub_panel indicators "stoch"
         (fun fig row => add_stochastic fig data 14 3 3 row) "Stochastic" heights st;
  st ← sub_panel indicators "atr"
         (fun fig row => add_atr fig data 14 row) "ATR (14)" heights st;
  st ← sub_panel indicators "obv"
         (fun fig row => add_obv fig data row) "On Balance Volume" heights st;
  fig ← lift (update_yaxes st.1 "Price" 1);
  lift (update_xaxes fig "Date" subplot_count).

(** * Notions the properties are stated with *)

(** The calculators a request runs on the price panel and on the panels
    whose code cannot fail on an empty frame. *)
Definition log_if (name : string) (indicators : list string) (cs : list calculator)
  : list calculator :=
  if requested name indicators then cs else [].

(** What the OBV rule assigns at a position, from the two closes, the
    volume and the previous value. *)
Definition obv_rule (close_i close_p : float64) (vol : Z) (prev : float64) : float64 :=
  if F.gtb close_i close_p then F.add prev (F.of_Z vol)
  else if F.ltb close_i close_p then F.sub prev (F.of_Z vol)
  else prev.

(** The series satisfies the OBV rule at every position from 1 to [k]. *)
Definition obv_upto (data : DataFrame) (k : nat) (obv : Pd.Series) : Prop :=
  length obv = length data
  ∧ obv !! 0%nat = Some zero
  ∧ ∀ i b_i b_p, (1 <= i < k)%nat → data !! i = Some b_i → data !! (i - 1)%nat = Some b_p →
      ∃ prev, obv !! (i - 1)%nat = Some prev
              ∧ obv !! i = Some (obv_rule (Close b_i) (Close b_p) (Volume b_i) prev).

(** Four bars: the close rises, falls, then stays. *)
Definition obv_sample : DataFrame :=
  [Bar_ 1 (Fin 10) (Fin 12) (Fin 9) (Fin 11) 100;
   Bar_ 2 (Fin 11) (Fin 13) (Fin 10) (Fin 12) 150;
   Bar_ 3 (Fin 12) (Fin 12) (Fin 9) (Fin 10) 120;
   Bar_ 4 (Fin 10) (Fin 11) (Fin 9) (Fin 10) 80].

(** Three bars with one price throughout. *)
Definition flat_bars : DataFrame :=
  [Bar_ 1 (Fin 10) (Fin 10) (Fin 10) (Fin 10) 100;
   Bar_ 2 (Fin 10) (Fin 10) (Fin 10) (Fin 10) 150;
   Bar_ 3 (Fin 10) (Fin 10) (Fin 10) (Fin 10) 120].

(** Three bars whose close only rises. *)
Definition rising_bars : DataFrame :=
  [Bar_ 1 (Fin 10) (Fin 12) (Fin 9) (Fin 10) 100;
   Bar_ 2 (Fin 10) (Fin 12) (Fin 9) (Fin 11) 150;
   Bar_ 3 (Fin 11) (Fin 13) (Fin 10) (Fin 13) 120].

(** The indicators with a panel of their own, in the order the code adds
    them. *)
Definition oscillators : list calculator := [RSI; MACD; Stochastic; ATR; OBV].

(** The name an indicator is requested by. *)
Definition key (c : calculator) : string :=
  match c with
  | SMA => "sma"
  | EMA => "ema"
  | Bollinger => "bollinger"
  | RSI => "rsi"
  | MACD => "macd"
  | Stochastic => "stoch"
  | ATR => "atr"
  | OBV => "obv"
  end.

(** The title [add_rsi], [add_macd], ... give the y-axis of their row. *)
Definition axis_title (c : calculator) : string :=
  match c with
  | RSI => "RSI"
  | MACD => "MACD"
  | Stochastic => "Stochastic"
  | ATR => "ATR"
  | OBV => "OBV"
  | _ => "Price"
  end.

(** The name of the first trace an oscillator adds. *)
Definition main_trace (c : calculator) : string :=
  match c with
  | RSI => "RSI (14)"
  | MACD => "MACD"
  | Stochastic => "%K"
  | ATR => "ATR (14)"
  | OBV => "OBV"
  | _ => "Price"
  end.

(** The panel of an oscillator in a figure: the row below the first whose
    y-axis carries its title, counted from 0. *)
Definition panel_of (fig : figure) (c : calculator) : option nat :=
  (fun p => (p.2 - 1)%nat) <$>
    list_find (fun r => yaxis_title fig !! r = Some (axis_title c))
              (seq 2 (rows fig - 1)).

(** The panels of the traces with a given name. *)
Definition trace_panels (fig : figure) (name : string) : list nat :=
  (fun t => (t.2 - 1)%nat) <$> filter (fun t => t_name t.1 = name) (traces fig).

(** The entries of a list before the first occurrence of [c]. *)
Fixpoint preceding (c : calculator) (os : list calculator) : list calculator :=
  match os with
  | [] => []
  | o :: os' => if decide (o = c) then [] else o :: preceding c os'
  end.

(** The panel by the order of the code: one more than the number of
    requested oscillators the code adds before this one. *)
Definition code_panel (indicators : list string) (c : calculator) : option nat :=
  if requested (key c) indicators
  then Some (S (length (filter (fun o => requested (key o) indicators)
                               (preceding c oscillators))))
  else None.

(** The panel by the order of the request: the position, from 1, among
    the oscillators named in the request. *)
Definition request_panel (indicators : list string) (c : calculator) : option nat :=
  (fun p => S p.1) <$>
    list_find (fun s => s = key c)
      (remove_dups (filter (fun s => s ∈ key <$> oscillators) indicators)).

(** A frame of one bar. *)
Definition one_bar : DataFrame := [Bar_ 1 (Fin 10) (Fin 12) (Fin 9) (Fin 11) 100].

(** The figure [create_technical_chart] returns, if it returns. *)
Definition chart_figure (data : DataFrame) (indicators : option (list string))
  : option figure :=
  match (create_technical_chart data indicators).2 with
  | inr fig => Some fig
  | inl _ => None
  end.

(** Panels handed out in turn, from [next] on, to the flags that are set. *)
Fixpoint number_panels (next : nat) (flags : list bool) : list (option nat) :=
  match flags with
  | [] => []
  | true :: flags' => Some next :: number_panels (S next) flags'
  | false :: flags' => None :: number_panels next flags'
  end.

(** The sum of a list of weights, as Python's [sum] adds them. *)
Definition total (xs : list float64) : float64 := foldl F.add zero xs.

(** A value that is not below zero: NaN, plus infinity or a non-negative
    number. *)
Definition not_below_zero (x : float64) : Prop :=
  match x with
  | NaN | PInf => True
  | NInf => False
  | Fin q => 0 <= q
  end.

(** Three bars with closes 10, 11, 12: mean 11 and sample deviation 1. *)
Definition three_closes : DataFrame :=
  [Bar_ 1 (Fin 10) (Fin 10) (Fin 10) (Fin 10) 100;
   Bar_ 2 (Fin 10) (Fin 11) (Fin 10) (Fin 11) 150;
   Bar_ 3 (Fin 11) (Fin 12) (Fin 11) (Fin 12) 120].

(** The close-to-close changes. *)
Fixpoint deltas (cs : list Q) : list Q :=
  match cs with
  | [] => []
  | c0 :: cs' =>
      match cs' with
      | [] => []
      | c1 :: _ => (c1 - c0) :: deltas cs'
      end
  end.

(** [gain = max(delta, 0)] and [loss = max(-delta, 0)]. *)
Definition manual_gain (d : Q) : Q := Qmax d 0.
Definition manual_loss (d : Q) : Q := Qmax (- d) 0.

(** The manual computation over the closes of one window: gains and losses
    of the changes, their means over the window, the ratio [RS] of the
    means and [100 - 100 / (1 + RS)]. *)
Definition manual_rsi (window : nat) (cs : list Q) : Q :=
  let w := inject_Z (Z.of_nat window) in
  let avg_gain := Pd.Qsum (manual_gain <$> deltas cs) / w in
  let avg_loss := Pd.Qsum (manual_loss <$> deltas cs) / w in
  let rs := avg_gain / avg_loss in
  100 - 100 / (1 + rs).

(** A double that is a number equal to the rational [q]. *)
Definition approx (x : float64) (q : Q) : Prop :=
  match x with
  | Fin q' => q' == q
  | _ => False
  end.

(** A series of 30 closes that starts 100, 101, 99, 102. *)
Definition scenario_closes : list Q :=
  [100; 101; 99; 102; 104; 103; 105; 107; 106; 108;
   110; 109; 111; 113; 112; 114; 116; 115; 117; 119;
   118; 120; 122; 121; 123; 125; 124; 126; 128; 127].

(** The 30 bars of these closes. *)
Definition scenario : DataFrame :=
  (fun c => Bar_ 0 (Fin c) (Fin (c + 1)) (Fin (c - 1)) (Fin c) 1000) <$> scenario_closes.

(** ** The technical-indicators page *)

(** The check boxes of [pages/3_Technical_Indicators.py]. *)
Record indicator_boxes : Type := Boxes {
  use_sma : bool;
  use_ema : bool;
  use_bollinger : bool;
  use_rsi : bool;
  use_macd : bool;
  use_stoch : bool;
  use_atr : bool;
  use_obv : bool;
}.

(** Lines 158 to 175 of the page: the request built from the boxes, one
    [append] for each box that is ticked. *)
Definition selected_indicators (boxes : indicator_boxes) : list string :=
  let selected : list string := [] in
  let selected := if use_sma boxes then (selected ++ ["sma"])%list else selected in
  let selected := if use_ema boxes then (selected ++ ["ema"])%list else selected in
  let selected := if use_bollinger boxes then (selected ++ ["bollinger"])%list else selected in
  let selected := if use_rsi boxes then (selected ++ ["rsi"])%list else selected in
  let selected := if use_macd boxes then (selected ++ ["macd"])%list else selected in
  let selected := if use_stoch boxes then (selected ++ ["stoch"])%list else selected in
  let selected := if use_atr boxes then (selected ++ ["atr"])%list else selected in
  let selected := if use_obv boxes then (selected ++ ["obv"])%list else selected in
  selected.

(** What the page shows for the data it fetched: the warning for an empty
    frame, the chart, or the error message of the [except] branch. *)
Inductive shown : Type :=
| NoData
| Chart (fig : figure)
| ChartError (e : exn).

(** Lines 154 to 184 of the page, from the fetched frame on: the check of
    [stock_data.empty], then the chart of the selected indicators inside
    the [try] block. *)
Definition technical_page (stock_data : DataFrame) (boxes : indicator_boxes)
  : list calculator * shown :=
  match stock_data with
  | [] => ([], NoData)
  | _ =>
      match create_technical_chart stock_data (Some (selected_indicators boxes)) with
      | (log, inr fig) => (log, Chart fig)
      | (log, inl e) => (log, ChartError e)
      end
  end.

(** The boxes of the oscillators that are ticked. *)
Definition ticked_oscillators (boxes : indicator_boxes) : list bool :=
  filter (fun t : bool => t)
    [use_rsi boxes; use_macd boxes; use_stoch boxes; use_atr boxes; use_obv boxes].

(** [fig'] is [fig] with traces added at its end, all on [row], and the
    y-axis of no other row touched; the grid, the x-axes and the
    annotations are those of [fig]. *)
Definition extends (row : nat) (fig fig' : figure) : Prop :=
  rows fig' = rows fig
  ∧ row_heights fig' = row_heights fig
  ∧ xaxis_title fig' = xaxis_title fig
  ∧ annotations fig' = annotations fig
  ∧ (∀ r, r ≠ row → yaxis_title fig' !! r = yaxis_title fig !! r)
  ∧ ∃ new, traces fig' = (traces fig ++ new)%list ∧ Forall (fun t => t.2 = row) new.

(** The boxes the page starts with. *)
Definition default_boxes : indicator_boxes :=
  Boxes true false true true true false false false.

(** An empty figure of two rows. *)
Definition two_rows : figure :=
  Figure 2 [Fin (1 # 2); Fin (1 # 2)] [] ∅ ∅ [].

(** The text of the annotation the chart puts beside the panel of an
    oscillator. *)
Definition panel_label (c : calculator) : string :=
  match c with
  | RSI => "RSI (14)"
  | MACD => "MACD"
  | Stochastic => "Stochastic"
  | ATR => "ATR (14)"
  | OBV => "On Balance Volume"
  | _ => "Price Chart"
  end.

(** The requested oscillators, in the order of the code. *)
Definition requested_oscillators (indicators : list string) : list calculator :=
  filter (fun o => requested (key o) indicators) oscillators.

(** * Properties *)

Ltac flags inds :=
  generalize (requested "sma" inds), (requested "ema" inds),
    (requested "bollinger" inds), (requested "rsi" inds),
    (requested "macd" inds), (requested "stoch" inds),
    (requested "atr" inds), (requested "obv" inds).

(** An empty frame with RSI requested: [calculate_rsi] runs, then
    [data['Date'].iloc[0]] raises. *)
Lemma empty_series_rsi_raises :
  create_technical_chart [] (Some ["rsi"]) = ([RSI], inl IndexError).
Proof. vm_compute. reflexivity. Qed.

(** C1.  For an empty frame the chart is built without a short cut.  When
    one of [rsi], [stoch], [obv] is requested it raises [IndexError], after
    a calculator has run.  Otherwise it returns a figure with the rows of
    the request and traces without points, and the calculators of the
    requested indicators have run. *)
Theorem empty_series_chart (indicators : option (list string)) :
  let inds := default ["sma"; "ema"; "bollinger"] indicators in
  let r := create_technical_chart [] indicators in
  if requested "rsi" inds || requested "stoch" inds || requested "obv" inds
  then r.2 = inl IndexError ∧ r.1 ≠ []
  else ∃ fig, r.2 = inr fig
         ∧ rows fig = count_subplots inds
         ∧ Forall (fun t => t_x t.1 = []) (traces fig)
         ∧ r.1 = (log_if "sma" inds [SMA; SMA] ++ log_if "ema" inds [EMA]
                  ++ log_if "bollinger" inds [Bollinger]
                  ++ log_if "macd" inds [MACD] ++ log_if "atr" inds [ATR])%list.
Proof.
  intros inds r. subst r.
  unfold create_technical_chart. fold inds.
  unfold count_subplots, sub_panel, log_if.
  flags inds.
  intros [] [] [] [] [] [] [] []; vm_compute;
    try (split; [reflexivity | discriminate]);
    (eexists; split; [reflexivity | split; [reflexivity | split; [| reflexivity]]]);
    repeat constructor.
Qed.

(** ** Facts about the pandas operations *)

Section pandas_facts.
Implicit Types (s : Pd.Series) (w i : nat).

Lemma length_shift s : length (Pd.shift s) = length s.
Proof. unfold Pd.shift. rewrite length_take. simpl. lia. Qed.

Lemma length_diff s : length (Pd.diff s) = length s.
Proof. unfold Pd.diff. rewrite length_zip_with, length_shift. lia. Qed.

Lemma length_rolling w agg s : length (Pd.rolling w agg s) = length s.
Proof. unfold Pd.rolling. apply length_imap. Qed.

Lemma lookup_rolling w agg s i :
  (i < length s)%nat →
  Pd.rolling w agg s !! i =
    Some (if decide (w <= S i)%nat
          then from_option agg NaN (Pd.finite_values (Pd.window_at w i s))
          else NaN).
Proof.
  intros Hi. unfold Pd.rolling. rewrite list_lookup_imap.
  destruct (lookup_lt_is_Some_2 s i Hi) as [x ->]. reflexivity.
Qed.

(** Before a full window is available the rolling value is NaN, and the
    entry is there. *)
Lemma lookup_rolling_early w agg s i :
  (i < length s)%nat → (S i < w)%nat → Pd.rolling w agg s !! i = Some NaN.
Proof.
  intros Hi Hw. rewrite lookup_rolling by done.
  destruct (decide (w <= S i)%nat); [lia | done].
Qed.

Lemma length_ewm_run alpha st s : length (Pd.ewm_run alpha st s) = length s.
Proof.
  revert st. induction s as [|x s IH]; intros st; simpl; [done|].
  by rewrite IH.
Qed.

Lemma ewm_mean_ok span s :
  (1 <= span)%nat → ∃ e, Pd.ewm_mean span s = inr e ∧ length e = length s.
Proof.
  intros Hspan. unfold Pd.ewm_mean.
  destruct (decide (span < 1)%nat); [lia|].
  destruct s as [|x0 s]; [by exists []|].
  rewrite fmap_cons. eexists. split; [reflexivity|].
  cbn [length]. by rewrite length_ewm_run, length_fmap.
Qed.

Lemma length_row_max3 (a b c : Pd.Series) :
  length a = length b → length a = length c →
  length (Pd.row_max3 a b c) = length a.
Proof.
  intros Hb Hc. unfold Pd.row_max3. rewrite !length_zip_with. lia.
Qed.

Lemma iloc_last_cons {A : Type} (x : A) (l : list A) :
  ∃ y, Pd.iloc_last (x :: l) = inr y.
Proof.
  unfold Pd.iloc_last.
  destruct (last (x :: l)) as [y|] eqn:E; [by eexists|].
  by apply last_None in E.
Qed.
End pandas_facts.

(** A loop over [range(start, start + len)] keeps an invariant indexed by
    the next value of the loop variable, and does not raise when no turn
    does. *)
Lemma for_each_seq {St : Type} (P : nat → St → Prop)
    (body : St → nat → result St) (len start : nat) (s : St) :
  P start s →
  (∀ i s, (start <= i < start + len)%nat → P i s →
          ∃ s', body s i = inr s' ∧ P (S i) s') →
  ∃ s', for_each (seq start len) body s = inr s' ∧ P (start + len)%nat s'.
Proof.
  revert start s. induction len as [|len IH]; intros start s H0 Hstep; simpl.
  - exists s. split; [done|]. by rewrite Nat.add_0_r.
  - destruct (Hstep start s) as (s1 & -> & H1); [lia | done |].
    simpl. destruct (IH (S start) s1) as (s2 & E & H2); [done | |].
    + intros i s' Hi. apply Hstep. lia.
    + exists s2. split; [done|]. by rewrite Nat.add_succ_r.
Qed.

Lemma obv_body_step (data : DataFrame) (i : nat) (obv : Pd.Series) :
  (1 <= i < length data)%nat → obv_upto data i obv →
  ∃ obv', obv_body data obv i = inr obv' ∧ obv_upto data (S i) obv'.
Proof.
  intros Hi (Hlen & H0 & Hrule).
  destruct (lookup_lt_is_Some_2 data i) as [b_i Ei]; [lia|].
  destruct (lookup_lt_is_Some_2 data (i - 1)) as [b_p Ep]; [lia|].
  destruct (lookup_lt_is_Some_2 obv (i - 1)) as [prev Eprev]; [lia|].
  exists (<[i := obv_rule (Close b_i) (Close b_p) (Volume b_i) prev]> obv).
  split.
  - unfold obv_body, Pd.iloc, Pd.iloc_set, obv_rule.
    rewrite !list_lookup_fmap, Ei, Ep, Eprev. simpl.
    destruct (F.gtb _ _); simpl; [|destruct (F.ltb _ _); simpl];
      destruct (decide (i < length obv)%nat); (lia || reflexivity).
  - split; [by rewrite length_insert|].
    split; [rewrite list_lookup_insert_ne by lia; done|].
    intros j b_j b_q Hj Ej Eq.
    destruct (decide (j = i)) as [->|Hne].
    + exists prev. rewrite list_lookup_insert_ne by lia.
      rewrite list_lookup_insert_eq by lia.
      split; [done|]. congruence.
    + destruct (Hrule j b_j b_q) as (p & Ep' & Ej'); [lia | done | done |].
      exists p. rewrite !list_lookup_insert_ne by lia. done.
Qed.

Lemma obv_loop_spec (data : DataFrame) :
  data ≠ [] →
  ∃ obv, calculate_on_balance_volume data = inr obv ∧ obv_upto data (length data) obv.
Proof.
  intros Hne. unfold calculate_on_balance_volume, Pd.iloc_set.
  rewrite length_replicate.
  destruct data as [|b data]; [done|]. simpl length.
  destruct (decide (0 < S (length data))%nat); [|lia]. simpl mbind.
  rewrite Nat.sub_0_r.
  destruct (for_each_seq (obv_upto (b :: data)) (obv_body (b :: data))
              (length data) 1 (<[0%nat := zero]> (replicate (S (length data)) NaN)))
    as (obv & E & H).
  - split; [by rewrite length_insert, length_replicate|].
    split; [done|]. intros; lia.
  - intros i s Hi Hs. apply obv_body_step; [simpl; lia | done].
  - exists obv. split; [exact E | exact H].
Qed.

(** ** On-balance volume *)

(** C8.  For a non-empty frame [calculate_on_balance_volume] returns a
    series that starts at 0 and, at every later position [i], is the
    previous value plus the volume when the close rose, minus the volume
    when it fell, and the previous value otherwise. *)
Theorem obv_recurrence (data : DataFrame) :
  data ≠ [] →
  ∃ obv, calculate_on_balance_volume data = inr obv
    ∧ obv !! 0%nat = Some (Fin 0)
    ∧ ∀ i close_i close_p vol prev,
        (1 <= i)%nat →
        (Close <$> data) !! i = Some close_i →
        (Close <$> data) !! (i - 1)%nat = Some close_p →
        (Volume <$> data) !! i = Some vol →
        obv !! (i - 1)%nat = Some prev →
        (F.gtb close_i close_p = true → obv !! i = Some (F.add prev (F.of_Z vol)))
        ∧ (F.ltb close_i close_p = true → obv !! i = Some (F.sub prev (F.of_Z vol)))
        ∧ (F.gtb close_i close_p = false → F.ltb close_i close_p = false →
           obv !! i = Some prev).
Proof.
  intros Hne.
  destruct (obv_loop_spec data Hne) as (obv & E & Hlen & H0 & Hrule).
  exists obv. split; [done|]. split; [done|].
  intros i close_i close_p vol prev Hi Eci Ecp Ev Eprev.
  rewrite list_lookup_fmap in Eci. rewrite list_lookup_fmap in Ecp.
  rewrite list_lookup_fmap in Ev.
  destruct (data !! i) as [b_i|] eqn:Ei; [|done].
  destruct (data !! (i - 1)%nat) as [b_p|] eqn:Ep; [|done].
  simpl in Eci, Ecp, Ev. simplify_eq.
  destruct (Hrule i b_i b_p) as (prev' & Eprev' & Eobv); [|done|done|].
  { split; [done|]. by eapply lookup_lt_Some. }
  rewrite Eprev in Eprev'. simplify_eq. rewrite Eobv. unfold obv_rule.
  assert (Hexcl : F.gtb (Close b_i) (Close b_p) = true →
                  F.ltb (Close b_i) (Close b_p) = true → False).
  { unfold F.gtb, F.ltb. destruct (Close b_i), (Close b_p); simpl; try done.
    rewrite !negb_true_iff. intros H1 H2.
    apply not_true_iff_false in H1, H2. rewrite Qle_bool_iff in H1, H2. lra. }
  repeat split.
  - by intros ->.
  - intros Hlt. destruct (F.gtb _ _) eqn:Hgt; [by destruct Hexcl|]. by rewrite Hlt.
  - by intros -> ->.
Qed.

Lemma obv_recurrence_witness :
  ∃ obv, calculate_on_balance_volume obv_sample = inr obv
    ∧ obv !! 0%nat = Some (Fin 0)
    ∧ obv !! 2%nat = Some (F.sub (Fin 150) (F.of_Z 120)).
Proof.
  destruct (obv_recurrence obv_sample) as (obv & E & H0 & Hrule); [discriminate|].
  exists obv. split; [exact E|]. split; [exact H0|].
  assert (E1 : obv !! 1%nat = Some (Fin 150)).
  { destruct (Hrule 1%nat (Fin 12) (Fin 11) 150%Z (Fin 0)) as (Hup & _);
      [lia | reflexivity | reflexivity | reflexivity | exact H0 |].
    exact (Hup eq_refl). }
  destruct (Hrule 2%nat (Fin 10) (Fin 12) 120%Z (Fin 150)) as (_ & Hdown & _);
    [lia | reflexivity | reflexivity | reflexivity | exact E1 |].
  exact (Hdown eq_refl).
Defined.

(** ** Alignment of the outputs *)

Section alignment.
Variable data : DataFrame.

Lemma length_rsi_gain column : length (rsi_gain data column) = length data.
Proof.
  unfold rsi_gain, Pd.where_. rewrite length_zip_with, length_fmap.
  unfold rsi_delta. rewrite length_diff, length_fmap. lia.
Qed.

Lemma length_rsi_loss column : length (rsi_loss data column) = length data.
Proof.
  unfold rsi_loss, Pd.where_. rewrite length_fmap, length_zip_with, length_fmap.
  unfold rsi_delta. rewrite length_diff, length_fmap. lia.
Qed.

Lemma length_rsi window column :
  length (calculate_rsi data window column) = length data.
Proof.
  unfold calculate_rsi, rsi_rs, rsi_avg_gain, rsi_avg_loss, Pd.rolling_mean.
  rewrite length_fmap, length_zip_with, !length_rolling.
  rewrite length_rsi_gain, length_rsi_loss. lia.
Qed.

Lemma length_fast_k k_period :
  length (stoch_fast_k data k_period) = length data.
Proof.
  unfold stoch_fast_k, stoch_high_max, stoch_low_min, Pd.rolling_min, Pd.rolling_max.
  rewrite length_fmap, !length_zip_with, !length_rolling, !length_fmap. lia.
Qed.

Lemma length_stoch_k k_period smooth_k :
  length (stoch_k data k_period smooth_k) = length data.
Proof. unfold stoch_k, Pd.rolling_mean. by rewrite length_rolling, length_fast_k. Qed.

Lemma length_stoch_d k_period d_period smooth_k :
  length (stoch_d data k_period d_period smooth_k) = length data.
Proof. unfold stoch_d, Pd.rolling_mean. by rewrite length_rolling, length_stoch_k. Qed.

Lemma length_true_range : length (atr_true_range data) = length data.
Proof.
  unfold atr_true_range. rewrite length_row_max3.
  - unfold atr_high_low. rewrite length_zip_with, !length_fmap. lia.
  - unfold atr_high_low, atr_high_close.
    rewrite length_fmap, !length_zip_with, length_shift, !length_fmap. lia.
  - unfold atr_high_low, atr_low_close.
    rewrite length_fmap, !length_zip_with, length_shift, !length_fmap. lia.
Qed.

Lemma length_atr window : length (calculate_atr data window) = length data.
Proof. unfold calculate_atr, Pd.rolling_mean. by rewrite length_rolling, length_true_range. Qed.

Lemma length_boll_ma window column : length (boll_ma data window column) = length data.
Proof. unfold boll_ma, Pd.rolling_mean. by rewrite length_rolling, length_fmap. Qed.

Lemma length_boll_std window column : length (boll_std data window column) = length data.
Proof. unfold boll_std, Pd.rolling_std. by rewrite length_rolling, length_fmap. Qed.

Lemma length_boll_upper window num_std column :
  length (boll_upper_band data window num_std column) = length data.
Proof.
  unfold boll_upper_band.
  rewrite length_zip_with, length_fmap, length_boll_ma, length_boll_std. lia.
Qed.

Lemma length_boll_lower window num_std column :
  length (boll_lower_band data window num_std column) = length data.
Proof.
  unfold boll_lower_band.
  rewrite length_zip_with, length_fmap, length_boll_ma, length_boll_std. lia.
Qed.

Lemma macd_ok fast_period slow_period signal_period column :
  (1 <= fast_period)%nat → (1 <= slow_period)%nat → (1 <= signal_period)%nat →
  ∃ macd_line signal_line histogram,
    calculate_macd data fast_period slow_period signal_period column
      = inr (macd_line, signal_line, histogram)
    ∧ length macd_line = length data
    ∧ length signal_line = length data
    ∧ length histogram = length data.
Proof.
  intros Hf Hs Hg. unfold calculate_macd.
  destruct (ewm_mean_ok fast_period (column <$> data) Hf) as (fe & -> & Lf).
  destruct (ewm_mean_ok slow_period (column <$> data) Hs) as (se & -> & Ls).
  simpl.
  destruct (ewm_mean_ok signal_period (zip_with F.sub fe se) Hg) as (sg & -> & Lg).
  simpl. rewrite length_fmap in Lf, Ls.
  rewrite length_zip_with in Lg.
  do 3 eexists. split; [reflexivity|].
  rewrite !length_zip_with. lia.
Qed.
End alignment.

(** ** The look-back of the stochastic oscillator *)

(** A window that holds a NaN has no rolling value. *)
Lemma rolling_nan_in_window (w : nat) (agg : list Q → float64) (s : Pd.Series)
    (i j : nat) :
  (i < length s)%nat → (w <= S i)%nat → (S i - w <= j <= i)%nat →
  s !! j = Some NaN →
  Pd.rolling w agg s !! i = Some NaN.
Proof.
  intros Hi Hw Hj Hx. rewrite lookup_rolling by done.
  destruct (decide (w <= S i)%nat); [|done].
  assert (Pd.finite_values (Pd.window_at w i s) = None) as ->; [|done].
  unfold Pd.finite_values. apply mapM_None, Exists_exists.
  exists NaN. split; [|done].
  apply (list_elem_of_lookup_2 _ (j - (S i - w))%nat).
  unfold Pd.window_at. rewrite lookup_take_lt by lia. rewrite lookup_drop.
  replace (S i - w + (j - (S i - w)))%nat with j by lia. done.
Qed.

(** The mean over a window of no bars is NaN. *)
Lemma rolling_mean_zero_window (s : Pd.Series) (i : nat) :
  (i < length s)%nat → Pd.rolling_mean 0 s !! i = Some NaN.
Proof.
  intros Hi. unfold Pd.rolling_mean. rewrite lookup_rolling by done.
  destruct (decide (0 <= S i)%nat); reflexivity.
Qed.

(** The fast %K has no value before [k_period] bars are there. *)
Lemma fast_k_lookback (data : DataFrame) (k_period i : nat) :
  (i < length data)%nat → (S i < k_period)%nat →
  stoch_fast_k data k_period !! i = Some NaN.
Proof.
  intros Hi Hk. unfold stoch_fast_k, stoch_low_min, stoch_high_max,
    Pd.rolling_min, Pd.rolling_max.
  rewrite list_lookup_fmap, !lookup_zip_with.
  rewrite !lookup_rolling_early by (rewrite ?length_fmap; done).
  rewrite list_lookup_fmap.
  destruct (lookup_lt_is_Some_2 data i Hi) as [b ->]. simpl.
  by destruct (Close b).
Qed.

(** %K needs [k_period] bars for its first fast value and [smooth_k] fast
    values for their mean. *)
Lemma stoch_k_lookback (data : DataFrame) (k_period smooth_k i : nat) :
  (i < length data)%nat →
  (S i < smooth_k)%nat ∨ (i + 2 < k_period + smooth_k)%nat →
  stoch_k data k_period smooth_k !! i = Some NaN.
Proof.
  intros Hi Hw. unfold stoch_k.
  destruct (decide (S i < smooth_k)%nat) as [Hearly|Hfull].
  { apply lookup_rolling_early; [by rewrite length_fast_k | done]. }
  destruct Hw as [Hw|Hw]; [lia|].
  destruct smooth_k as [|s'].
  { apply rolling_mean_zero_window. by rewrite length_fast_k. }
  apply (rolling_nan_in_window _ _ _ _ (i - s')%nat);
    [by rewrite length_fast_k | lia | lia |].
  apply fast_k_lookback; lia.
Qed.

(** %D needs [d_period] values of %K on top of that. *)
Lemma stoch_d_lookback (data : DataFrame) (k_period d_period smooth_k i : nat) :
  (i < length data)%nat →
  (S i < d_period)%nat ∨ (i + 3 < k_period + smooth_k + d_period)%nat →
  stoch_d data k_period d_period smooth_k !! i = Some NaN.
Proof.
  intros Hi Hw. unfold stoch_d.
  destruct (decide (S i < d_period)%nat) as [Hearly|Hfull].
  { apply lookup_rolling_early; [by rewrite length_stoch_k | done]. }
  destruct Hw as [Hw|Hw]; [lia|].
  destruct d_period as [|d'].
  { apply rolling_mean_zero_window. by rewrite length_stoch_k. }
  apply (rolling_nan_in_window _ _ _ _ (i - d')%nat);
    [by rewrite length_stoch_k | lia | lia |].
  apply stoch_k_lookback; [lia|]. right. lia.
Qed.

(** C7.  For a non-empty frame every series an indicator produces has the
    length of the frame (the moving averages with any window, the
    exponential ones and MACD with spans of at least 1), and the entries
    that cannot be computed yet are there as NaN: those before a full
    window, and for the stochastic those before [k_period] bars, then
    [smooth_k] fast values, then [d_period] values of %K are there. *)
Theorem indicator_outputs_aligned (data : DataFrame) :
  data ≠ [] →
  let n := length data in
  (∀ window column, length (sma_ma data window column) = n)
  ∧ (∀ span column, (1 <= span)%nat →
       ∃ ema, ema_ema data span column = inr ema ∧ length ema = n)
  ∧ (∀ window num_std column,
       length (boll_ma data window column) = n
       ∧ length (boll_upper_band data window num_std column) = n
       ∧ length (boll_lower_band data window num_std column) = n)
  ∧ (∀ window column, length (calculate_rsi data window column) = n)
  ∧ (∀ fast_period slow_period signal_period column,
       (1 <= fast_period)%nat → (1 <= slow_period)%nat → (1 <= signal_period)%nat →
       ∃ macd_line signal_line histogram,
         calculate_macd data fast_period slow_period signal_period column
           = inr (macd_line, signal_line, histogram)
         ∧ length macd_line = n ∧ length signal_line = n ∧ length histogram = n)
  ∧ (∀ k_period d_period smooth_k,
       length (calculate_stochastic data k_period d_period smooth_k).1 = n
       ∧ length (calculate_stochastic data k_period d_period smooth_k).2 = n)
  ∧ (∀ window, length (calculate_atr data window) = n)
  ∧ (∃ obv, calculate_on_balance_volume data = inr obv ∧ length obv = n)
  ∧ (∀ window column num_std i, (i < n)%nat → (S i < window)%nat →
       sma_ma data window column !! i = Some NaN
       ∧ boll_ma data window column !! i = Some NaN
       ∧ boll_upper_band data window num_std column !! i = Some NaN
       ∧ boll_lower_band data window num_std column !! i = Some NaN
       ∧ calculate_rsi data window column !! i = Some NaN
       ∧ calculate_atr data window !! i = Some NaN)
  ∧ (∀ k_period d_period smooth_k i, (i < n)%nat →
       ((S i < smooth_k)%nat ∨ (i + 2 < k_period + smooth_k)%nat →
        (calculate_stochastic data k_period d_period smooth_k).1 !! i = Some NaN)
       ∧ ((S i < d_period)%nat ∨ (i + 3 < k_period + smooth_k + d_period)%nat →
          (calculate_stochastic data k_period d_period smooth_k).2 !! i = Some NaN)).
Proof.
  intros Hne n. subst n.
  split; [intros; unfold sma_ma, Pd.rolling_mean; by rewrite length_rolling, length_fmap|].
  split.
  { intros span column Hspan. unfold ema_ema.
    destruct (ewm_mean_ok span (column <$> data) Hspan) as (e & E & L).
    exists e. by rewrite <- (length_fmap column data). }
  split; [intros; by rewrite length_boll_ma, length_boll_upper, length_boll_lower|].
  split; [apply length_rsi|].
  split; [apply macd_ok|].
  split; [intros; simpl; by rewrite length_stoch_k, length_stoch_d|].
  split; [apply length_atr|].
  split.
  { destruct (obv_loop_spec data Hne) as (obv & E & L & _). by exists obv. }
  split.
  - intros window column num_std i Hi Hw.
    assert (Ema : Pd.rolling_mean window (column <$> data) !! i = Some NaN).
    { apply lookup_rolling_early; [by rewrite length_fmap | done]. }
    assert (Estd : Pd.rolling_std window (column <$> data) !! i = Some NaN).
    { apply lookup_rolling_early; [by rewrite length_fmap | done]. }
    split; [exact Ema|]. split; [exact Ema|].
    split; [|split; [|split]].
    + unfold boll_upper_band, boll_ma, boll_std.
      rewrite lookup_zip_with, Ema, list_lookup_fmap, Estd. reflexivity.
    + unfold boll_lower_band, boll_ma, boll_std.
      rewrite lookup_zip_with, Ema, list_lookup_fmap, Estd. reflexivity.
    + unfold calculate_rsi, rsi_rs, rsi_avg_gain, rsi_avg_loss, Pd.rolling_mean.
      rewrite list_lookup_fmap, lookup_zip_with.
      rewrite (lookup_rolling_early window Pd.mean (rsi_gain data column))
        by (rewrite ?length_rsi_gain; done).
      rewrite (lookup_rolling_early window Pd.mean (rsi_loss data column))
        by (rewrite ?length_rsi_loss; done).
      reflexivity.
    + unfold calculate_atr, Pd.rolling_mean.
      apply lookup_rolling_early; [by rewrite length_true_range | done].
  - intros k_period d_period smooth_k i Hi. simpl. split; intros Hw.
    + by apply stoch_k_lookback.
    + by apply stoch_d_lookback.
Qed.

Lemma indicator_outputs_aligned_witness :
  length (calculate_rsi obv_sample 14 Close) = 4%nat
  ∧ calculate_rsi obv_sample 14 Close !! 3%nat = Some NaN
  ∧ (calculate_stochastic obv_sample 3 1 1).1 !! 1%nat = Some NaN.
Proof.
  pose proof (indicator_outputs_aligned obv_sample) as H.
  destruct H as (_ & _ & _ & Hrsi & _ & _ & _ & _ & Hnan & Hstoch); [discriminate|].
  split; [exact (Hrsi 14%nat Close)|]. split.
  - destruct (Hnan 14%nat Close (Fin 2) 3%nat) as (_ & _ & _ & _ & H & _);
      [simpl; lia | lia | exact H].
  - destruct (Hstoch 3%nat 1%nat 1%nat 1%nat) as (H & _); [simpl; lia|].
    apply H. right. lia.
Defined.

(** ** Windows and their extrema *)

Section windows.
Implicit Types (s : Pd.Series) (qs : list Q).

(** A window of at least one value ends with the value at its position. *)
Lemma window_at_last w i s :
  (1 <= w <= S i)%nat → Pd.window_at w i s !! (w - 1)%nat = s !! i.
Proof.
  intros Hw. unfold Pd.window_at.
  rewrite lookup_take_lt by lia. rewrite lookup_drop. f_equal. lia.
Qed.

Lemma finite_values_lookup (xs : Pd.Series) qs j x :
  Pd.finite_values xs = Some qs → xs !! j = Some x →
  ∃ q, x = Fin q ∧ qs !! j = Some q.
Proof.
  intros Hfin Hx. apply mapM_Some in Hfin.
  destruct (Forall2_lookup_l _ _ _ _ _ Hfin Hx) as (q & Hv & Hq).
  exists q. split; [|done]. destruct x; simpl in Hq; congruence.
Qed.

(** A rolling extremum that is a number comes from a full window of
    finite values. *)
Lemma rolling_Fin_inv w agg s i q :
  Pd.rolling w agg s !! i = Some (Fin q) →
  (i < length s)%nat ∧ (w <= S i)%nat
  ∧ ∃ qs, Pd.finite_values (Pd.window_at w i s) = Some qs ∧ agg qs = Fin q.
Proof.
  intros H. assert (Hi : (i < length s)%nat).
  { rewrite <- (length_rolling w agg s). by eapply lookup_lt_Some. }
  rewrite lookup_rolling in H by done. split; [done|].
  destruct (decide (w <= S i)%nat); [|done]. split; [done|].
  destruct (Pd.finite_values _) as [qs|]; [|done].
  exists qs. split; [done|]. simpl in H. congruence.
Qed.

Lemma foldr_Qmin_le q0 qs :
  foldr Qmin q0 qs <= q0 ∧ ∀ q, q ∈ qs → foldr Qmin q0 qs <= q.
Proof.
  induction qs as [|a qs [IH0 IH]]; simpl.
  - split; [apply Qle_refl|]. intros q Hq. by apply elem_of_nil in Hq.
  - split.
    + eapply Qle_trans; [apply Q.le_min_r | exact IH0].
    + intros q Hq. apply elem_of_cons in Hq as [->|Hq].
      * apply Q.le_min_l.
      * eapply Qle_trans; [apply Q.le_min_r | by apply IH].
Qed.

Lemma foldr_Qmax_ge q0 qs :
  q0 <= foldr Qmax q0 qs ∧ ∀ q, q ∈ qs → q <= foldr Qmax q0 qs.
Proof.
  induction qs as [|a qs [IH0 IH]]; simpl.
  - split; [apply Qle_refl|]. intros q Hq. by apply elem_of_nil in Hq.
  - split.
    + eapply Qle_trans; [exact IH0 | apply Q.le_max_r].
    + intros q Hq. apply elem_of_cons in Hq as [->|Hq].
      * apply Q.le_max_l.
      * eapply Qle_trans; [by apply IH | apply Q.le_max_r].
Qed.

Lemma minimum_le qs m q : Pd.minimum qs = Fin m → q ∈ qs → m <= q.
Proof.
  destruct qs as [|q0 qs]; [done|]. simpl. intros [= <-] Hq.
  destruct (foldr_Qmin_le q0 qs) as [H0 H].
  apply elem_of_cons in Hq as [->|Hq]; [done | by apply H].
Qed.

Lemma maximum_ge qs m q : Pd.maximum qs = Fin m → q ∈ qs → q <= m.
Proof.
  destruct qs as [|q0 qs]; [done|]. simpl. intros [= <-] Hq.
  destruct (foldr_Qmax_ge q0 qs) as [H0 H].
  apply elem_of_cons in Hq as [->|Hq]; [done | by apply H].
Qed.

(** The value at the position of a defined rolling extremum is finite and
    the extremum bounds it. *)
Lemma rolling_min_le w s i m :
  Pd.rolling_min w s !! i = Some (Fin m) →
  ∃ q, s !! i = Some (Fin q) ∧ m <= q.
Proof.
  intros H. apply rolling_Fin_inv in H as (Hi & Hw & qs & Hfin & Hm).
  assert (1 <= w)%nat.
  { destruct w; [|lia]. unfold Pd.window_at in Hfin. simpl in Hfin.
    assert (qs = []) as -> by (cbv in Hfin; congruence). discriminate. }
  destruct (lookup_lt_is_Some_2 s i Hi) as [x Hx].
  destruct (finite_values_lookup _ qs (w - 1)%nat x Hfin) as (q & -> & Hq).
  { by rewrite window_at_last. }
  exists q. split; [done|]. eapply minimum_le; [done|].
  by eapply list_elem_of_lookup_2.
Qed.

Lemma rolling_max_ge w s i m :
  Pd.rolling_max w s !! i = Some (Fin m) →
  ∃ q, s !! i = Some (Fin q) ∧ q <= m.
Proof.
  intros H. apply rolling_Fin_inv in H as (Hi & Hw & qs & Hfin & Hm).
  assert (1 <= w)%nat.
  { destruct w; [|lia]. unfold Pd.window_at in Hfin. simpl in Hfin.
    assert (qs = []) as -> by (cbv in Hfin; congruence). discriminate. }
  destruct (lookup_lt_is_Some_2 s i Hi) as [x Hx].
  destruct (finite_values_lookup _ qs (w - 1)%nat x Hfin) as (q & -> & Hq).
  { by rewrite window_at_last. }
  exists q. split; [done|]. eapply maximum_ge; [done|].
  by eapply list_elem_of_lookup_2.
Qed.

(** A rolling value is NaN or a number, never an infinity. *)
Lemma rolling_min_value w s i x :
  Pd.rolling_min w s !! i = Some x → x = NaN ∨ ∃ q, x = Fin q.
Proof.
  intros H. assert (Hi : (i < length s)%nat).
  { rewrite <- (length_rolling w Pd.minimum s). by eapply lookup_lt_Some. }
  unfold Pd.rolling_min in H. rewrite lookup_rolling in H by done.
  destruct (decide _); [|left; congruence].
  destruct (Pd.finite_values _) as [[|q qs]|]; simpl in H; simplify_eq; eauto.
Qed.
End windows.

Lemma rolling_max_value w (s : Pd.Series) i x :
  Pd.rolling_max w s !! i = Some x → x = NaN ∨ ∃ q, x = Fin q.
Proof.
  intros H. assert (Hi : (i < length s)%nat).
  { rewrite <- (length_rolling w Pd.maximum s). by eapply lookup_lt_Some. }
  unfold Pd.rolling_max in H. rewrite lookup_rolling in H by done.
  destruct (decide _); [|left; congruence].
  destruct (Pd.finite_values _) as [[|q qs]|]; simpl in H; simplify_eq; eauto.
Qed.

(** A quotient of two zeros is NaN, and stays NaN when scaled. *)
Lemma zero_over_zero (a b : Q) :
  a == 0 → b == 0 → F.mul hundred (F.div (Fin a) (Fin b)) = NaN.
Proof.
  intros Ha Hb. unfold F.div.
  assert (Qeq_bool b 0 = true) as -> by by apply Qeq_bool_iff.
  unfold F.sgn. assert ((0 ?= a) = Eq) as ->; [|reflexivity].
  apply Qeq_alt. by symmetry.
Qed.

(** ** Stochastic oscillator *)

(** C5.  When every bar has its close between its low and its high, the
    fast %K is NaN at every position where the highest high of the period
    equals the lowest low. *)
Theorem stochastic_flat_range_nan (data : DataFrame) (k_period i : nat)
    (hh ll : float64) :
  Forall (fun b => F.leb (Low b) (Close b) = true ∧ F.leb (Close b) (High b) = true)
         data →
  stoch_high_max data k_period !! i = Some hh →
  stoch_low_min data k_period !! i = Some ll →
  F.eqb hh ll = true →
  stoch_fast_k data k_period !! i = Some NaN.
Proof.
  intros Hbars Hhh Hll Heq.
  destruct (rolling_max_value _ _ _ _ Hhh) as [->|[h ->]]; [done|].
  destruct (rolling_min_value _ _ _ _ Hll) as [->|[l ->]]; [done|].
  simpl in Heq. apply Qeq_bool_iff in Heq.
  destruct (rolling_max_ge _ _ _ _ Hhh) as (qh & Ehigh & Hqh).
  destruct (rolling_min_le _ _ _ _ Hll) as (ql & Elow & Hql).
  rewrite list_lookup_fmap in Ehigh. rewrite list_lookup_fmap in Elow.
  destruct (data !! i) as [b|] eqn:Eb; [|done].
  simpl in Ehigh, Elow.
  destruct (proj1 (Forall_lookup _ _) Hbars i b Eb) as [Hlc Hch].
  injection Ehigh as Ehigh. injection Elow as Elow.
  rewrite Ehigh, Elow in *.
  destruct (Close b) as [| | |c] eqn:Ec; try done.
  simpl in Hlc, Hch. apply Qle_bool_iff in Hlc, Hch.
  unfold stoch_fast_k.
  rewrite list_lookup_fmap, !lookup_zip_with, Hhh, Hll, list_lookup_fmap, Eb.
  simpl. rewrite Ec. simpl. f_equal.
  apply zero_over_zero; rewrite Qred_correct; lra.
Qed.

Lemma stochastic_flat_range_nan_witness :
  stoch_fast_k flat_bars 2 !! 2%nat = Some NaN.
Proof.
  apply (stochastic_flat_range_nan flat_bars 2 2 (Fin 10) (Fin 10));
    [repeat constructor | reflexivity | reflexivity | reflexivity].
Defined.

(** ** Relative strength index *)

(** A flat series: the average loss is zero at a position with a full
    window, and the RSI there is NaN, not 100. *)
Lemma rsi_flat_series_nan :
  let data := replicate 15 (Bar_ 0 (Fin 100) (Fin 100) (Fin 100) (Fin 100) 1000) in
  rsi_avg_gain data 14 Close !! 14%nat = Some (Fin 0)
  ∧ rsi_avg_loss data 14 Close !! 14%nat = Some (Fin 0)
  ∧ calculate_rsi data 14 Close !! 14%nat = Some NaN
  ∧ calculate_rsi data 14 Close !! 14%nat ≠ Some (Fin 100).
Proof. vm_compute. repeat split; discriminate. Qed.

(** C4.  At a position where the average gain and the average loss are
    numbers and the average loss is zero, the RSI is exactly 100 when the
    average gain is not zero, and NaN when it is zero too. *)
Theorem rsi_zero_loss (data : DataFrame) (window : nat) (column : bar -> float64)
    (i : nat) (g l : Q) :
  rsi_avg_gain data window column !! i = Some (Fin g) →
  rsi_avg_loss data window column !! i = Some (Fin l) →
  l == 0 →
  (¬ g == 0 → calculate_rsi data window column !! i = Some (Fin 100))
  ∧ (g == 0 → calculate_rsi data window column !! i = Some NaN).
Proof.
  intros Hg Hl Hzero. unfold calculate_rsi, rsi_rs.
  rewrite list_lookup_fmap, lookup_zip_with, Hg, Hl. simpl.
  assert (Qeq_bool l 0 = true) as -> by by apply Qeq_bool_iff.
  unfold F.sgn. destruct (0 ?= g) eqn:Hcmp; simpl.
  - apply Qeq_alt in Hcmp. split; [intros Hn; destruct Hn; by symmetry | done].
  - apply Qlt_alt in Hcmp. split; [reflexivity | intros Hg0; lra].
  - apply Qgt_alt in Hcmp. split; [reflexivity | intros Hg0; lra].
Qed.

Lemma rsi_zero_loss_witness :
  calculate_rsi rising_bars 2 Close !! 2%nat = Some (Fin 100).
Proof.
  refine (proj1 (rsi_zero_loss rising_bars 2 Close 2 (3 # 2) 0 _ _ _) _);
    [reflexivity | reflexivity | reflexivity | discriminate].
Defined.

(** ** Panels *)

(** The request [macd], [rsi]: MACD is first in the request, and the chart
    has it on panel 2, below RSI. *)
Lemma panels_not_in_request_order :
  (fig ← chart_figure one_bar (Some ["macd"; "rsi"]); panel_of fig MACD) = Some 2%nat
  ∧ (fig ← chart_figure one_bar (Some ["macd"; "rsi"]); panel_of fig RSI) = Some 1%nat
  ∧ request_panel ["macd"; "rsi"] MACD = Some 1%nat
  ∧ (fig ← chart_figure one_bar (Some ["macd"; "rsi"]); panel_of fig MACD)
    ≠ request_panel ["macd"; "rsi"] MACD.
Proof. vm_compute. repeat split; discriminate. Qed.

Lemma code_panel_numbered (inds : list string) :
  code_panel inds <$> oscillators
  = number_panels 1 ((fun c => requested (key c) inds) <$> oscillators).
Proof.
  unfold code_panel, oscillators. simpl.
  rewrite !filter_cons, !filter_nil. cbv beta. simpl key.
  generalize (requested "rsi" inds), (requested "macd" inds),
    (requested "stoch" inds), (requested "atr" inds), (requested "obv" inds).
  intros [] [] [] [] []; reflexivity.
Qed.

(** The chart of a non-empty frame: no step raises, and the rows, the
    weights and the panels are those the request determines. *)
Lemma chart_nonempty_flags (b : bar) (data : DataFrame) (inds : list string) :
  match (create_technical_chart (b :: data) (Some inds)).2 with
  | inr fig =>
      rows fig = count_subplots inds
      ∧ row_heights fig = subplot_heights (count_subplots inds)
      ∧ [panel_of fig RSI; panel_of fig MACD; panel_of fig Stochastic;
         panel_of fig ATR; panel_of fig OBV]
        = number_panels 1 [requested "rsi" inds; requested "macd" inds;
                           requested "stoch" inds; requested "atr" inds;
                           requested "obv" inds]
      ∧ [trace_panels fig "RSI (14)"; trace_panels fig "MACD";
         trace_panels fig "%K"; trace_panels fig "ATR (14)"; trace_panels fig "OBV"]
        = option_list <$>
            number_panels 1 [requested "rsi" inds; requested "macd" inds;
                             requested "stoch" inds; requested "atr" inds;
                             requested "obv" inds]
  | inl _ => False
  end.
Proof.
  destruct (iloc_last_cons (Date b) (Date <$> data)) as [z Hz].
  change (Date b :: (Date <$> data)) with (Date <$> b :: data) in Hz.
  destruct (obv_loop_spec (b :: data)) as (obv & Hobv & _); [done|].
  destruct (ewm_mean_ok 20 obv) as (obv_ema & Hobv_ema & _); [lia|].
  destruct (ewm_mean_ok 20 (Close <$> b :: data)) as (ema & Hema & _); [lia|].
  destruct (macd_ok (b :: data) 12 26 9 Close) as (ml & sl & hg & Hmacd & _); [lia..|].
  assert (Hfirst : Pd.iloc (Date <$> b :: data) 0 = inr (Date b)) by reflexivity.
  unfold create_technical_chart, sub_panel, add_moving_average,
    add_exponential_moving_average, add_bollinger_bands, add_rsi, add_macd,
    add_stochastic, add_atr, add_obv, level_line, calculate_stochastic, ema_ema.
  simpl default.
  rewrite Hfirst, Hz, Hobv, Hema, Hmacd.
  cbv beta iota delta [mbind M_bind invoke].
  rewrite Hobv_ema.
  clear Hfirst Hz Hobv Hema Hmacd Hobv_ema.
  generalize (sma_ma (b :: data) 50 Close), (sma_ma (b :: data) 200 Close),
    (boll_ma (b :: data) 20 Close), (boll_upper_band (b :: data) 20 (Fin 2) Close),
    (boll_lower_band (b :: data) 20 (Fin 2) Close),
    (calculate_rsi (b :: data) 14 Close), (stoch_k (b :: data) 14 3),
    (stoch_d (b :: data) 14 3 3), (calculate_atr (b :: data) 14).
  generalize
    ((fun b0 : bar => if F.geb (Close b0) (Open b0) then "#26A69A" else "#EF5350")
       <$> b :: data),
    (F.of_Z ∘ Volume <$> b :: data), (Open <$> b :: data), (High <$> b :: data),
    (Low <$> b :: data), (Close <$> b :: data), (Date <$> b :: data), (Date b).
  unfold count_subplots.
  flags inds. clear.
  intros [] [] [] [] [] [] [] []; intros; vm_compute; repeat split.
Qed.

Lemma count_subplots_oscillators (inds : list string) :
  count_subplots inds
  = S (length (filter (fun o => requested (key o) inds) oscillators)).
Proof.
  unfold count_subplots, oscillators.
  rewrite !filter_cons, !filter_nil. cbv beta. simpl key.
  generalize (requested "rsi" inds), (requested "macd" inds),
    (requested "stoch" inds), (requested "atr" inds), (requested "obv" inds).
  intros [] [] [] [] []; reflexivity.
Qed.

(** C2.  For a non-empty frame the chart is built without raising; it has
    one row for the price and one for each requested oscillator, and a
    requested oscillator sits on the panel numbered by the fixed order RSI,
    MACD, Stochastic, ATR, OBV among the requested ones, whatever the order
    of the request; an oscillator that is not requested has no panel. *)
Theorem oscillator_panels_in_code_order (data : DataFrame)
    (indicators : option (list string)) (c : calculator) :
  data ≠ [] →
  c ∈ oscillators →
  let inds := default ["sma"; "ema"; "bollinger"] indicators in
  ∃ fig, (create_technical_chart data indicators).2 = inr fig
    ∧ rows fig = S (length (filter (fun o => requested (key o) inds) oscillators))
    ∧ panel_of fig c = code_panel inds c
    ∧ trace_panels fig (main_trace c) = option_list (code_panel inds c).
Proof.
  intros Hne Hc inds.
  destruct data as [|b data]; [done|].
  assert (E : create_technical_chart (b :: data) indicators
              = create_technical_chart (b :: data) (Some inds)) by reflexivity.
  rewrite E. clear E.
  pose proof (chart_nonempty_flags b data inds) as H.
  destruct (create_technical_chart (b :: data) (Some inds)).2 as [e|fig]; [done|].
  destruct H as (Hrows & _ & Hpanels & Htraces).
  exists fig. split; [done|].
  split; [by rewrite Hrows, count_subplots_oscillators|].
  assert (Hcode : [code_panel inds RSI; code_panel inds MACD;
                   code_panel inds Stochastic; code_panel inds ATR;
                   code_panel inds OBV]
                  = number_panels 1 [requested "rsi" inds; requested "macd" inds;
                                     requested "stoch" inds; requested "atr" inds;
                                     requested "obv" inds])
    by exact (code_panel_numbered inds).
  rewrite <- Hcode in Hpanels, Htraces.
  change (option_list <$> ?l) with (map option_list l) in Htraces.
  cbn [map] in Htraces.
  unfold oscillators in Hc.
  repeat (apply elem_of_cons in Hc as [->|Hc]; [simpl; split; congruence|]).
  by apply elem_of_nil in Hc.
Qed.

Lemma oscillator_panels_in_code_order_witness :
  ∃ fig, (create_technical_chart one_bar (Some ["macd"; "rsi"])).2 = inr fig
    ∧ rows fig = 3%nat
    ∧ panel_of fig MACD = Some 2%nat
    ∧ trace_panels fig "MACD" = [2%nat].
Proof.
  apply (oscillator_panels_in_code_order one_bar (Some ["macd"; "rsi"]) MACD);
    [discriminate | repeat constructor].
Defined.

(** ** Height weights *)

(** With no oscillator requested the only weight is 0.5. *)
Lemma heights_without_oscillators :
  subplot_heights (count_subplots ["sma"]) = [Fin (1 # 2)]
  ∧ total (subplot_heights (count_subplots ["sma"])) = Fin (1 # 2)
  ∧ total (subplot_heights (count_subplots ["sma"])) ≠ Fin 1
  ∧ (row_heights <$> chart_figure one_bar (Some ["sma"])) = Some [Fin (1 # 2)].
Proof. vm_compute. repeat split; discriminate. Qed.

Lemma chart_empty_heights (inds : list string) (fig : figure) :
  (create_technical_chart [] (Some inds)).2 = inr fig →
  rows fig = count_subplots inds
  ∧ row_heights fig = subplot_heights (count_subplots inds).
Proof.
  unfold create_technical_chart, count_subplots, sub_panel. simpl default.
  flags inds.
  intros [] [] [] [] [] [] [] []; vm_compute; intros H;
    (discriminate H || (injection H as <-; split; reflexivity)).
Qed.

(** C6.  Panel 0 has weight 0.5 and each of the [n] oscillator panels has
    0.5 / n.  The weights sum to 1 when there is an oscillator panel; with
    none the list is the single weight 0.5, the whole of the total.  Panel 0
    weighs no less than the other panels together, and the figure is made
    with these weights. *)
Theorem panel_height_weights (indicators : option (list string)) :
  let inds := default ["sma"; "ema"; "bollinger"] indicators in
  let n := length (filter (fun o => requested (key o) inds) oscillators) in
  let heights := subplot_heights (count_subplots inds) in
  heights = Fin (1 # 2) :: replicate n (F.div (Fin (1 # 2)) (F.of_nat n))
  ∧ total heights = (if decide (n = 0%nat) then Fin (1 # 2) else Fin 1)
  ∧ F.leb (total (drop 1 heights)) (Fin (1 # 2)) = true
  ∧ (∀ data fig, (create_technical_chart data indicators).2 = inr fig →
       rows fig = S n ∧ row_heights fig = heights).
Proof.
  intros inds n heights.
  assert (Hn : count_subplots inds = S n) by apply count_subplots_oscillators.
  assert (n <= 5)%nat.
  { subst n. etransitivity; [apply length_filter|]. simpl. lia. }
  subst heights. rewrite Hn.
  split; [|split; [|split]].
  - unfold subplot_heights. simpl. rewrite Nat.sub_0_r.
    destruct (decide (1 < S n)%nat); [done|].
    assert (n = 0%nat) as -> by lia. reflexivity.
  - do 6 (destruct n as [|n]; [vm_compute; reflexivity|]). lia.
  - do 6 (destruct n as [|n]; [vm_compute; reflexivity|]). lia.
  - intros data fig Hfig. rewrite <- Hn.
    assert (E : create_technical_chart data indicators
                = create_technical_chart data (Some inds)) by reflexivity.
    rewrite E in Hfig. clear E.
    destruct data as [|b data]; [by apply chart_empty_heights|].
    pose proof (chart_nonempty_flags b data inds) as H'.
    rewrite Hfig in H'. destruct H' as (? & ? & _). done.
Qed.

Lemma panel_height_weights_witness :
  total (subplot_heights (count_subplots ["macd"; "rsi"])) = Fin 1.
Proof.
  exact (proj1 (proj2 (panel_height_weights (Some ["macd"; "rsi"])))).
Defined.

(** ** The default request *)

(** C10.  Without an indicator list the chart is the one of the request
    [sma], [ema], [bollinger]: for every frame it is built without raising,
    it has one row, and the price, the volume, the two moving averages, the
    exponential average and the Bollinger traces are all on that row. *)
Theorem default_indicators (data : DataFrame) :
  create_technical_chart data None
  = create_technical_chart data (Some ["sma"; "ema"; "bollinger"])
  ∧ ∃ fig, (create_technical_chart data None).2 = inr fig
      ∧ (create_technical_chart data None).1 = [SMA; SMA; EMA; Bollinger]
      ∧ rows fig = 1%nat
      ∧ Forall (fun t => t.2 = 1%nat) (traces fig)
      ∧ (fun t => t_name t.1) <$> traces fig
        = ["Price"; "Volume"; "50-day MA"; "200-day MA"; "20-day EMA";
           "20-day MA"; "Upper Band"; "Lower Band"; "Upper Band"; "Lower Band"].
Proof.
  split; [reflexivity|].
  destruct (ewm_mean_ok 20 (Close <$> data)) as (ema & Hema & _); [lia|].
  unfold create_technical_chart, sub_panel, add_moving_average,
    add_exponential_moving_average, add_bollinger_bands, ema_ema.
  simpl default. rewrite Hema. clear Hema.
  generalize (sma_ma data 50 Close), (sma_ma data 200 Close),
    (boll_ma data 20 Close), (boll_upper_band data 20 (Fin 2) Close),
    (boll_lower_band data 20 (Fin 2) Close).
  generalize
    ((fun b0 : bar => if F.geb (Close b0) (Open b0) then "#26A69A" else "#EF5350")
       <$> data),
    (F.of_Z ∘ Volume <$> data), (Open <$> data), (High <$> data),
    (Low <$> data), (Close <$> data), (Date <$> data).
  intros. vm_compute. eexists. split; [reflexivity|].
  split; [reflexivity|]. split; [reflexivity|]. split; [|reflexivity].
  repeat constructor.
Qed.

(** ** Bollinger bands *)

Lemma Qsqrt_nonneg (q : Q) : 0 <= F.Qsqrt q.
Proof.
  unfold F.Qsqrt. rewrite Qred_correct. unfold Qle. simpl.
  rewrite Z.mul_1_r. apply Z.sqrt_nonneg.
Qed.

Lemma sqrt_not_below_zero (x : float64) : not_below_zero (F.sqrt x).
Proof.
  destruct x as [| | |q]; simpl; try done.
  destruct (Qle_bool 0 q); simpl; [apply Qsqrt_nonneg | done].
Qed.

Lemma rolling_std_not_below_zero w (s : Pd.Series) i sd :
  Pd.rolling_std w s !! i = Some sd → not_below_zero sd.
Proof.
  intros H. assert (Hi : (i < length s)%nat).
  { rewrite <- (length_rolling w Pd.std s). by eapply lookup_lt_Some. }
  unfold Pd.rolling_std in H. rewrite lookup_rolling in H by done.
  injection H as <-. destruct (decide _); [|done].
  destruct (Pd.finite_values _) as [qs|]; simpl; [|done].
  apply sqrt_not_below_zero.
Qed.

Lemma mul_not_below_zero (sd k : float64) :
  not_below_zero sd → F.leb zero k = true → not_below_zero (F.mul sd k).
Proof.
  destruct sd as [| | |s], k as [| | |kq]; simpl; try done.
  - intros _ Hk. apply Qle_bool_iff in Hk. unfold F.sgn.
    destruct (0 ?= kq) eqn:E; simpl; try done; apply Qgt_alt in E; lra.
  - intros Hs _. unfold F.sgn.
    destruct (0 ?= s) eqn:E; simpl; try done; apply Qgt_alt in E; lra.
  - intros Hs Hk. apply Qle_bool_iff in Hk. rewrite Qred_correct. nra.
Qed.

(** A band offset that is not below zero keeps the bands around the
    middle. *)
Lemma band_order (m t : float64) :
  not_below_zero t →
  F.isnan (F.sub m t) = false → F.isnan m = false → F.isnan (F.add m t) = false →
  F.leb (F.sub m t) m = true ∧ F.leb m (F.add m t) = true.
Proof.
  destruct m as [| | |mq], t as [| | |tq]; simpl; try done.
  intros Ht _ _ _. split; apply Qle_bool_iff; rewrite Qred_correct; lra.
Qed.

(** C9.  With a multiplier that is not negative, wherever the three
    Bollinger series are defined the lower band is at most the middle and
    the middle at most the upper band; the middle is the rolling mean of the
    column and the bands are the middle minus and plus the multiplier times
    the rolling sample standard deviation. *)
Theorem bollinger_ordering (data : DataFrame) (window : nat) (num_std : float64)
    (column : bar -> float64) (i : nat) (lower middle upper : float64) :
  F.leb zero num_std = true →
  boll_lower_band data window num_std column !! i = Some lower →
  boll_ma data window column !! i = Some middle →
  boll_upper_band data window num_std column !! i = Some upper →
  F.isnan lower = false → F.isnan middle = false → F.isnan upper = false →
  F.leb lower middle = true ∧ F.leb middle upper = true
  ∧ Pd.rolling_mean window (column <$> data) !! i = Some middle
  ∧ ∃ sd, Pd.rolling_std window (column <$> data) !! i = Some sd
      ∧ lower = F.sub middle (F.mul sd num_std)
      ∧ upper = F.add middle (F.mul sd num_std).
Proof.
  intros Hk Hlower Hmiddle Hupper Nl Nm Nu.
  unfold boll_lower_band in Hlower. unfold boll_upper_band in Hupper.
  rewrite lookup_zip_with, Hmiddle, list_lookup_fmap in Hlower.
  rewrite lookup_zip_with, Hmiddle, list_lookup_fmap in Hupper.
  unfold boll_std in Hlower, Hupper.
  destruct (Pd.rolling_std window (column <$> data) !! i) as [sd|] eqn:Esd; [|done].
  simpl in Hlower, Hupper. injection Hlower as <-. injection Hupper as <-.
  assert (Ht : not_below_zero (F.mul sd num_std)).
  { apply mul_not_below_zero; [|done]. by eapply rolling_std_not_below_zero. }
  destruct (band_order middle (F.mul sd num_std) Ht Nl Nm Nu) as [H1 H2].
  split; [done|]. split; [done|]. split; [exact Hmiddle|].
  exists sd. done.
Qed.

Lemma bollinger_ordering_witness :
  F.leb (Fin 9) (Fin 11) = true ∧ F.leb (Fin 11) (Fin 13) = true.
Proof.
  destruct (bollinger_ordering three_closes 3 (Fin 2) Close 2
              (Fin 9) (Fin 11) (Fin 13)) as (H1 & H2 & _);
    [reflexivity | vm_compute; reflexivity | vm_compute; reflexivity
    | vm_compute; reflexivity | reflexivity | reflexivity | reflexivity |].
  split; [exact H1 | exact H2].
Defined.

(** ** The RSI of the first full window, by hand *)

Section by_hand.
Implicit Types (cs qs : list Q) (s : Pd.Series).

Lemma zip_with_fmap_r {A B C : Type} (g : A → B → C) (f : A → B) (l : list A) :
  zip_with g l (f <$> l) = (fun x => g x (f x)) <$> l.
Proof. induction l as [|x l IH]; csimpl; [done|]. by rewrite IH. Qed.

Lemma sub_shifted (x : float64) cs :
  zip_with F.sub (Fin <$> cs) (take (length cs) (x :: (Fin <$> cs)))
  = match cs with
    | [] => []
    | c0 :: _ => F.sub (Fin c0) x :: ((fun d => Fin (Qred d)) <$> deltas cs)
    end.
Proof.
  revert x. induction cs as [|c0 cs IH]; intros x; [done|].
  simpl length. rewrite fmap_cons. simpl take. simpl zip_with.
  rewrite IH. destruct cs as [|c1 cs]; reflexivity.
Qed.

Lemma diff_closes c0 cs :
  Pd.diff (Fin <$> c0 :: cs)
  = NaN :: ((fun d => Fin (Qred d)) <$> deltas (c0 :: cs)).
Proof.
  unfold Pd.diff, Pd.shift. rewrite length_fmap.
  by rewrite (sub_shifted NaN (c0 :: cs)).
Qed.

Lemma gain_approx (d : Q) :
  approx (if F.gtb (Fin (Qred d)) zero then Fin (Qred d) else zero) (manual_gain d).
Proof.
  unfold manual_gain. simpl.
  destruct (Qle_bool (Qred d) 0) eqn:E; simpl.
  - apply Qle_bool_iff in E. rewrite Qred_correct in E.
    symmetry. by apply Q.max_r.
  - assert (0 < d) as H.
    { apply Qnot_le_lt. intros H. rewrite <- (Qred_correct d) in H.
      apply Qle_bool_iff in H. congruence. }
    rewrite Qred_correct. symmetry. apply Q.max_l. lra.
Qed.

Lemma loss_approx (d : Q) :
  approx (F.neg (if F.ltb (Fin (Qred d)) zero then Fin (Qred d) else zero))
         (manual_loss d).
Proof.
  unfold manual_loss. simpl.
  destruct (Qle_bool 0 (Qred d)) eqn:E; simpl.
  - apply Qle_bool_iff in E. rewrite Qred_correct in E.
    change (Qred (- 0)) with 0. symmetry. apply Q.max_r. lra.
  - assert (d < 0) as H.
    { apply Qnot_le_lt. intros H. rewrite <- (Qred_correct d) in H.
      apply Qle_bool_iff in H. congruence. }
    rewrite !Qred_correct. symmetry. apply Q.max_l. lra.
Qed.

Lemma rsi_gain_approx (data : DataFrame) c0 cs :
  Close <$> data = Fin <$> c0 :: cs →
  Forall2 approx (rsi_gain data Close) (0 :: (manual_gain <$> deltas (c0 :: cs))).
Proof.
  intros Hc. unfold rsi_gain, rsi_delta, Pd.where_.
  rewrite zip_with_fmap_r, Hc, diff_closes, fmap_cons. constructor.
  - simpl. reflexivity.
  - rewrite <- list_fmap_compose. apply Forall2_fmap, Forall_Forall2_diag.
    apply Forall_forall. intros d _. apply gain_approx.
Qed.

Lemma rsi_loss_approx (data : DataFrame) c0 cs :
  Close <$> data = Fin <$> c0 :: cs →
  Forall2 approx (rsi_loss data Close) (0 :: (manual_loss <$> deltas (c0 :: cs))).
Proof.
  intros Hc. unfold rsi_loss, rsi_delta, Pd.where_.
  rewrite zip_with_fmap_r, Hc, diff_closes, !fmap_cons. constructor.
  - simpl. reflexivity.
  - rewrite <- !list_fmap_compose. apply Forall2_fmap, Forall_Forall2_diag.
    apply Forall_forall. intros d _. apply loss_approx.
Qed.
End by_hand.

Section first_window.
Implicit Types (qs : list Q) (s : Pd.Series).

Lemma Qsum_proper qs1 qs2 : Forall2 Qeq qs1 qs2 → Pd.Qsum qs1 == Pd.Qsum qs2.
Proof.
  induction 1 as [|a b l1 l2 Hab _ IH]; simpl; [reflexivity|].
  by rewrite Hab, IH.
Qed.

Lemma finite_values_approx s qs :
  Forall2 approx s qs →
  ∃ l, Pd.finite_values s = Some l ∧ Forall2 Qeq l qs.
Proof.
  induction 1 as [|x q s' qs' Hx _ (vs & El & Hl)].
  - by exists [].
  - destruct x as [| | |q']; try done.
    exists (q' :: vs). split; [|by constructor].
    unfold Pd.finite_values in *. simpl. rewrite El. reflexivity.
Qed.

(** The rolling mean at the end of the first full window. *)
Lemma rolling_mean_first_window w s qs :
  Forall2 approx s qs → (1 <= w <= length s)%nat →
  ∃ a, Pd.rolling_mean w s !! (w - 1)%nat = Some (Fin a)
       ∧ a == Pd.Qsum (take w qs) / inject_Z (Z.of_nat w).
Proof.
  intros Hs Hw. unfold Pd.rolling_mean.
  rewrite lookup_rolling by lia.
  destruct (decide (w <= S (w - 1))%nat) as [_|]; [|lia].
  unfold Pd.window_at. replace (S (w - 1) - w)%nat with 0%nat by lia.
  rewrite drop_0.
  destruct (finite_values_approx (take w s) (take w qs)) as (l & -> & Hl).
  { by apply Forall2_take. }
  simpl. unfold Pd.mean.
  assert (Hlen : length l = w).
  { rewrite (Forall2_length _ _ _ Hl), length_take.
    rewrite <- (Forall2_length _ _ _ Hs). lia. }
  rewrite Hlen. unfold F.of_nat, F.of_Z, F.div.
  assert (Hpos : 0 < inject_Z (Z.of_nat w)).
  { change 0 with (inject_Z 0). rewrite <- Zlt_Qlt. lia. }
  destruct (Qeq_bool (inject_Z (Z.of_nat w)) 0) eqn:E.
  { apply Qeq_bool_iff in E. lra. }
  eexists. split; [reflexivity|].
  by rewrite Qred_correct, (Qsum_proper _ _ Hl).
Qed.

Lemma deltas_take w (cs : list Q) : deltas (take (S w) cs) = take w (deltas cs).
Proof.
  revert cs. induction w as [|w IH]; intros cs.
  - destruct cs as [|c0 [|c1 cs]]; reflexivity.
  - destruct cs as [|c0 [|c1 cs]]; [done..|].
    change (deltas (take (S (S w)) (c0 :: c1 :: cs)))
      with ((c1 - c0) :: deltas (take (S w) (c1 :: cs))).
    rewrite IH. reflexivity.
Qed.

Lemma Qsum_gain_nonneg (ds : list Q) : 0 <= Pd.Qsum (manual_gain <$> ds).
Proof.
  induction ds as [|d ds IH]; [done|]. rewrite fmap_cons.
  change (0 <= manual_gain d + Pd.Qsum (manual_gain <$> ds)).
  pose proof (Q.le_max_r d 0) as H. fold (manual_gain d) in H. lra.
Qed.

Lemma Qsum_loss_nonneg (ds : list Q) : 0 <= Pd.Qsum (manual_loss <$> ds).
Proof.
  induction ds as [|d ds IH]; [done|]. rewrite fmap_cons.
  change (0 <= manual_loss d + Pd.Qsum (manual_loss <$> ds)).
  pose proof (Q.le_max_r (- d) 0) as H. fold (manual_loss d) in H. lra.
Qed.

(** From the two averages to the RSI, when the average loss is positive. *)
Lemma rsi_of_averages (ag al G L W : Q) :
  ag == G / W → al == L / W → 0 <= G → 0 < L → 0 < W →
  ∃ r, rsi_of_rs (F.div (Fin ag) (Fin al)) = Fin r
       ∧ r == 100 - 100 / (1 + (G / W) / (L / W)).
Proof.
  intros Hag Hal HG HL HW.
  assert (Hal_pos : 0 < al).
  { rewrite Hal. apply Qlt_shift_div_l; lra. }
  assert (Hag_pos : 0 <= ag).
  { rewrite Hag. apply Qle_shift_div_l; lra. }
  assert (Hrs : 0 <= ag / al).
  { apply Qle_shift_div_l; lra. }
  unfold rsi_of_rs, F.div at 2.
  destruct (Qeq_bool al 0) eqn:E1.
  { apply Qeq_bool_iff in E1. lra. }
  unfold F.add, F.div, hundred.
  destruct (Qeq_bool (Qred (1 + Qred (ag / al))) 0) eqn:E2.
  { apply Qeq_bool_iff in E2. rewrite !Qred_correct in E2. lra. }
  unfold F.sub. eexists. split; [reflexivity|].
  rewrite !Qred_correct. by rewrite Hag, Hal.
Qed.
End first_window.

(** At the end of the first full window the RSI is the manual value,
    provided some close of the window fell. *)
Lemma rsi_first_window (data : DataFrame) (closes : list Q) (w : nat) :
  Close <$> data = Fin <$> closes →
  (1 <= w <= length closes)%nat →
  0 < Pd.Qsum (manual_loss <$> deltas (take w closes)) →
  ∃ r, calculate_rsi data w Close !! (w - 1)%nat = Some (Fin r)
       ∧ r == manual_rsi w (take w closes).
Proof.
  intros Hc Hw Hloss.
  destruct closes as [|c0 cs]; [simpl in Hw; lia|].
  assert (Hlen : length data = length (c0 :: cs)).
  { by rewrite <- (length_fmap Close data), Hc, length_fmap. }
  destruct w as [|w]; [lia|].
  destruct (rolling_mean_first_window (S w) (rsi_gain data Close)
              (0 :: (manual_gain <$> deltas (c0 :: cs)))) as (ag & Eag & Hag).
  { by apply rsi_gain_approx. }
  { rewrite length_rsi_gain. lia. }
  destruct (rolling_mean_first_window (S w) (rsi_loss data Close)
              (0 :: (manual_loss <$> deltas (c0 :: cs)))) as (al & Eal & Hal).
  { by apply rsi_loss_approx. }
  { rewrite length_rsi_loss. lia. }
  rewrite firstn_cons, <- fmap_take, <- deltas_take in Hag, Hal.
  change (Pd.Qsum (0 :: ?l)) with (0 + Pd.Qsum l) in Hag, Hal.
  rewrite Qplus_0_l in Hag, Hal.
  unfold calculate_rsi, rsi_rs, rsi_avg_gain, rsi_avg_loss.
  rewrite list_lookup_fmap, lookup_zip_with, Eag, Eal.
  destruct (rsi_of_averages ag al _ _ _ Hag Hal) as (r & Er & Hr).
  - apply Qsum_gain_nonneg.
  - exact Hloss.
  - change 0 with (inject_Z 0). rewrite <- Zlt_Qlt. lia.
  - exists r. split; [|exact Hr]. rewrite <- Er. reflexivity.
Qed.

(** ** The scenario *)

(** C3.  For a frame of 30 bars whose closes are numbers that start 100,
    101, 99, 102, the RSI of window 14 at index 13 is a number, and it is
    the value of the manual gain and loss computation over the first 14
    closes. *)
Theorem rsi_scenario (data : DataFrame) (closes : list Q) :
  length data = 30%nat →
  Close <$> data = Fin <$> closes →
  take 4 closes = [100; 101; 99; 102] →
  ∃ r, calculate_rsi data 14 Close !! 13%nat = Some (Fin r)
       ∧ r == manual_rsi 14 (take 14 closes).
Proof.
  intros Hlen Hc Hstart.
  assert (Hlen' : length closes = 30%nat).
  { by rewrite <- (length_fmap Fin closes), <- Hc, length_fmap. }
  apply (rsi_first_window data closes 14 Hc); [lia|].
  do 4 (destruct closes as [|? closes]; [done|]).
  injection Hstart as -> -> -> ->.
  change (take 14 (100 :: 101 :: 99 :: 102 :: closes))
    with (100 :: 101 :: 99 :: take 11 (102 :: closes)).
  change (deltas (100 :: 101 :: 99 :: ?l))
    with ((101 - 100) :: (99 - 101) :: deltas (99 :: l)).
  rewrite !fmap_cons.
  change (Pd.Qsum (?a :: ?b :: ?l)) with (a + (b + Pd.Qsum l)).
  pose proof (Qsum_loss_nonneg (deltas (99 :: take 11 (102 :: closes)))) as H1.
  pose proof (Q.le_max_r (- (101 - 100)) 0) as H2.
  pose proof (Q.le_max_l (- (99 - 101)) 0) as H3.
  unfold manual_loss at 1 2. lra.
Qed.

Lemma rsi_scenario_witness :
  ∃ r, calculate_rsi scenario 14 Close !! 13%nat = Some (Fin r)
       ∧ r == manual_rsi 14 (take 14 scenario_closes).
Proof.
  apply (rsi_scenario scenario scenario_closes); reflexivity.
Defined.

(** * Further properties of the calculators *)

(** ** Rolling means keep bounds *)

Section mean_bounds.
Implicit Types (qs : list Q) (s : Pd.Series).

Lemma Qsum_ge (lo : Q) qs :
  Forall (fun q => lo <= q) qs →
  inject_Z (Z.of_nat (length qs)) * lo <= Pd.Qsum qs.
Proof.
  induction 1 as [|q qs Hq _ IH]; [unfold Qle; simpl; lia|].
  change (Pd.Qsum (q :: qs)) with (q + Pd.Qsum qs).
  rewrite length_cons, Nat2Z.inj_succ. unfold Z.succ.
  rewrite inject_Z_plus. change (inject_Z 1) with 1. lra.
Qed.

Lemma Qsum_le (hi : Q) qs :
  Forall (fun q => q <= hi) qs →
  Pd.Qsum qs <= inject_Z (Z.of_nat (length qs)) * hi.
Proof.
  induction 1 as [|q qs Hq _ IH]; [unfold Qle; simpl; lia|].
  change (Pd.Qsum (q :: qs)) with (q + Pd.Qsum qs).
  rewrite length_cons, Nat2Z.inj_succ. unfold Z.succ.
  rewrite inject_Z_plus. change (inject_Z 1) with 1. lra.
Qed.

(** The mean of a window is NaN (no value) or a number. *)
Lemma mean_value qs :
  Pd.mean qs = NaN
  ∨ ∃ m, Pd.mean qs = Fin m
         ∧ m == Pd.Qsum qs / inject_Z (Z.of_nat (length qs))
         ∧ (0 < length qs)%nat.
Proof.
  destruct qs as [|q qs]; [left; reflexivity|]. right.
  unfold Pd.mean, F.of_nat, F.of_Z, F.div.
  assert (Hpos : 0 < inject_Z (Z.of_nat (length (q :: qs)))).
  { change 0 with (inject_Z 0). rewrite <- Zlt_Qlt. simpl length. lia. }
  destruct (Qeq_bool _ 0) eqn:E.
  { apply Qeq_bool_iff in E. lra. }
  eexists. split; [reflexivity|]. split; [apply Qred_correct | simpl; lia].
Qed.

Lemma mean_ge (lo : Q) qs m :
  Forall (fun q => lo <= q) qs → Pd.mean qs = Fin m → lo <= m.
Proof.
  intros Hqs Hm. destruct (mean_value qs) as [E|(m' & E & Hm' & Hlen)];
    rewrite E in Hm; [done|]. injection Hm as <-. rewrite Hm'.
  assert (0 < inject_Z (Z.of_nat (length qs))).
  { change 0 with (inject_Z 0). rewrite <- Zlt_Qlt. lia. }
  apply Qle_shift_div_l; [done|]. pose proof (Qsum_ge lo qs Hqs). lra.
Qed.

Lemma mean_le (hi : Q) qs m :
  Forall (fun q => q <= hi) qs → Pd.mean qs = Fin m → m <= hi.
Proof.
  intros Hqs Hm. destruct (mean_value qs) as [E|(m' & E & Hm' & Hlen)];
    rewrite E in Hm; [done|]. injection Hm as <-. rewrite Hm'.
  assert (0 < inject_Z (Z.of_nat (length qs))).
  { change 0 with (inject_Z 0). rewrite <- Zlt_Qlt. lia. }
  apply Qle_shift_div_r; [done|]. pose proof (Qsum_le hi qs Hqs). lra.
Qed.

(** The finite values of a window are values of the series. *)
Lemma finite_values_Forall (P : Q → Prop) (xs : Pd.Series) qs :
  Forall (fun x => ∀ q, x = Fin q → P q) xs →
  Pd.finite_values xs = Some qs → Forall P qs.
Proof.
  intros Hxs Hfin. apply mapM_Some in Hfin.
  induction Hfin as [|x q xs qs Hx _ IH]; [constructor|].
  apply Forall_cons in Hxs as [Hx' Hxs]. constructor; [|by apply IH].
  apply Hx'. destruct x; simpl in Hx; congruence.
Qed.

(** A rolling mean is NaN or a number, and the number satisfies every
    bound that all the numbers of the series satisfy. *)
Lemma rolling_mean_value w s i x :
  Pd.rolling_mean w s !! i = Some x → x = NaN ∨ ∃ q, x = Fin q.
Proof.
  intros H. assert (Hi : (i < length s)%nat).
  { rewrite <- (length_rolling w Pd.mean s). by eapply lookup_lt_Some. }
  unfold Pd.rolling_mean in H. rewrite lookup_rolling in H by done.
  injection H as <-. destruct (decide _); [|by left].
  destruct (Pd.finite_values _) as [qs|]; simpl; [|by left].
  destruct (mean_value qs) as [->|(m & -> & _)]; eauto.
Qed.

Lemma rolling_mean_bound (P : Q → Prop) (bound : ∀ qs m, Forall P qs → Pd.mean qs = Fin m → P m)
    w s i m :
  Forall (fun x => ∀ q, x = Fin q → P q) s →
  Pd.rolling_mean w s !! i = Some (Fin m) → P m.
Proof.
  intros Hs H.
  apply rolling_Fin_inv in H as (Hi & Hw & qs & Hfin & Hm).
  apply (bound qs m); [|done].
  eapply finite_values_Forall; [|done].
  unfold Pd.window_at. by apply Forall_take, Forall_drop.
Qed.

Lemma rolling_mean_ge (lo : Q) w s i m :
  Forall (fun x => ∀ q, x = Fin q → lo <= q) s →
  Pd.rolling_mean w s !! i = Some (Fin m) → lo <= m.
Proof. apply (rolling_mean_bound (fun q => lo <= q)), mean_ge. Qed.

Lemma rolling_mean_le (hi : Q) w s i m :
  Forall (fun x => ∀ q, x = Fin q → q <= hi) s →
  Pd.rolling_mean w s !! i = Some (Fin m) → m <= hi.
Proof. apply (rolling_mean_bound (fun q => q <= hi)), mean_le. Qed.
End mean_bounds.

(** ** The range of the RSI *)

Lemma rsi_gain_nonneg (data : DataFrame) (column : bar → float64) :
  Forall (fun x => ∀ q, x = Fin q → 0 <= q) (rsi_gain data column).
Proof.
  unfold rsi_gain, Pd.where_. rewrite zip_with_fmap_r.
  apply Forall_fmap, Forall_forall. intros d _ q. simpl.
  destruct d as [| | |dq]; simpl; try (intros [= <-]; lra); try done.
  destruct (Qle_bool dq 0) eqn:E; simpl; intros [= <-]; [lra|].
  apply Qlt_le_weak, Qnot_le_lt. intros H. apply Qle_bool_iff in H. congruence.
Qed.

Lemma rsi_loss_nonneg (data : DataFrame) (column : bar → float64) :
  Forall (fun x => ∀ q, x = Fin q → 0 <= q) (rsi_loss data column).
Proof.
  unfold rsi_loss, Pd.where_. rewrite zip_with_fmap_r, <- list_fmap_compose.
  apply Forall_fmap, Forall_forall. intros d _ q. simpl.
  destruct d as [| | |dq]; simpl;
    try (intros [= <-]; unfold Qle; simpl; lia); try done.
  destruct (Qle_bool 0 dq) eqn:E; simpl; intros [= <-];
    [unfold Qle; simpl; lia|].
  rewrite Qred_correct.
  assert (dq < 0); [|lra].
  apply Qnot_le_lt. intros H. apply Qle_bool_iff in H. congruence.
Qed.

(** From two averages that are not negative the RSI is NaN or lies between
    0 and 100. *)
Lemma rsi_of_averages_range (ag al : Q) :
  0 <= ag → 0 <= al →
  rsi_of_rs (F.div (Fin ag) (Fin al)) = NaN
  ∨ ∃ r, rsi_of_rs (F.div (Fin ag) (Fin al)) = Fin r ∧ 0 <= r <= 100.
Proof.
  intros Hag Hal. unfold F.div.
  destruct (Qeq_bool al 0) eqn:E.
  - unfold F.sgn. destruct (0 ?= ag) eqn:C; simpl.
    + by left.
    + right. exists 100. split; [reflexivity | lra].
    + apply Qgt_alt in C. lra.
  - assert (0 < al).
    { apply Qnot_le_lt. intros H. apply Qeq_bool_neq in E. apply E. lra. }
    assert (Hrs : 0 <= ag / al) by (apply Qle_shift_div_l; lra).
    right. unfold rsi_of_rs, F.add, F.div, hundred.
    destruct (Qeq_bool (Qred (1 + Qred (ag / al))) 0) eqn:E2.
    { apply Qeq_bool_iff in E2. rewrite !Qred_correct in E2. lra. }
    unfold F.sub. eexists. split; [reflexivity|].
    rewrite !Qred_correct.
    assert (Hd : 0 < 1 + ag / al) by lra.
    assert (0 <= 100 / (1 + ag / al)) by (apply Qle_shift_div_l; lra).
    assert (100 / (1 + ag / al) <= 100) by (apply Qle_shift_div_r; lra).
    lra.
Qed.

(** X1.  Every value of the RSI is NaN or a number between 0 and 100, for
    every frame, window and column. *)
Theorem rsi_range (data : DataFrame) (window : nat) (column : bar → float64)
    (i : nat) (x : float64) :
  calculate_rsi data window column !! i = Some x →
  x = NaN ∨ ∃ r, x = Fin r ∧ 0 <= r <= 100.
Proof.
  intros H. unfold calculate_rsi, rsi_rs in H.
  rewrite list_lookup_fmap, lookup_zip_with in H.
  destruct (rsi_avg_gain data window column !! i) as [g|] eqn:Eg; [|done].
  destruct (rsi_avg_loss data window column !! i) as [l|] eqn:El; [|done].
  simpl in H. injection H as <-.
  destruct (rolling_mean_value _ _ _ _ Eg) as [->|[ag ->]]; [by left|].
  destruct (rolling_mean_value _ _ _ _ El) as [->|[al ->]]; [by left|].
  apply rsi_of_averages_range.
  - eapply rolling_mean_ge; [apply rsi_gain_nonneg | exact Eg].
  - eapply rolling_mean_ge; [apply rsi_loss_nonneg | exact El].
Qed.

Lemma rsi_range_witness :
  ∃ r, calculate_rsi obv_sample 2 Close !! 2%nat = Some (Fin r) ∧ 0 <= r <= 100.
Proof.
  destruct (rsi_range obv_sample 2 Close 2 (Fin (100 # 3))) as [H|(r & H & Hr)];
    [vm_compute; reflexivity | discriminate H |].
  exists r. split; [|exact Hr]. rewrite <- H. vm_compute. reflexivity.
Defined.

(** ** The range of the stochastic oscillator *)

Section stochastic_bounds.
Variable data : DataFrame.
Hypothesis bars :
  Forall (fun b => F.leb (Low b) (Close b) = true ∧ F.leb (Close b) (High b) = true)
         data.

Lemma fast_k_range k_period i x :
  stoch_fast_k data k_period !! i = Some x →
  x = NaN ∨ ∃ v, x = Fin v ∧ 0 <= v <= 100.
Proof.
  intros H. unfold stoch_fast_k in H.
  rewrite list_lookup_fmap, !lookup_zip_with, list_lookup_fmap in H.
  destruct (data !! i) as [b|] eqn:Eb; [|done].
  destruct (stoch_high_max data k_period !! i) as [hh|] eqn:Ehh;
    [|simpl in H; destruct (stoch_low_min data k_period !! i); done].
  destruct (stoch_low_min data k_period !! i) as [ll|] eqn:Ell; [|done].
  simpl in H. injection H as <-.
  destruct (rolling_min_value _ _ _ _ Ell) as [->|[l ->]].
  { left. by destruct (Close b), hh. }
  destruct (rolling_max_value _ _ _ _ Ehh) as [->|[h ->]].
  { left. by destruct (Close b). }
  destruct (rolling_max_ge _ _ _ _ Ehh) as (qh & Ehigh & Hqh).
  destruct (rolling_min_le _ _ _ _ Ell) as (ql & Elow & Hql).
  rewrite list_lookup_fmap, Eb in Ehigh. rewrite list_lookup_fmap, Eb in Elow.
  simpl in Ehigh, Elow. injection Ehigh as Ehigh. injection Elow as Elow.
  destruct (proj1 (Forall_lookup _ _) bars i b Eb) as [Hlc Hch].
  rewrite Elow in Hlc. rewrite Ehigh in Hch.
  destruct (Close b) as [| | |c]; try done.
  simpl in Hlc, Hch. apply Qle_bool_iff in Hlc, Hch.
  simpl. destruct (Qeq_bool (Qred (h - l)) 0) eqn:E.
  - left. apply Qeq_bool_iff in E. rewrite Qred_correct in E.
    unfold F.sgn. assert ((0 ?= Qred (c - l)) = Eq) as ->; [|reflexivity].
    apply Qeq_alt. rewrite Qred_correct. lra.
  - right. eexists. split; [reflexivity|].
    assert (Hpos : 0 < h - l).
    { apply Qnot_le_lt. intros Hle. apply Qeq_bool_neq in E. apply E.
      rewrite Qred_correct. lra. }
    rewrite !Qred_correct.
    assert (0 <= (c - l) / (h - l)) by (apply Qle_shift_div_l; lra).
    assert ((c - l) / (h - l) <= 1) by (apply Qle_shift_div_r; lra).
    lra.
Qed.

Lemma fast_k_Forall (P : Q → Prop) k_period :
  (∀ v, 0 <= v <= 100 → P v) →
  Forall (fun x => ∀ q, x = Fin q → P q) (stoch_fast_k data k_period).
Proof.
  intros HP. apply Forall_lookup. intros i x Hx q ->.
  destruct (fast_k_range _ _ _ Hx) as [|(v & [= <-] & Hv)]; [done|]. by apply HP.
Qed.

Lemma stoch_k_range k_period smooth_k i x :
  stoch_k data k_period smooth_k !! i = Some x →
  x = NaN ∨ ∃ v, x = Fin v ∧ 0 <= v <= 100.
Proof.
  intros H. destruct (rolling_mean_value _ _ _ _ H) as [->|[v ->]]; [by left|].
  right. exists v. split; [done|]. split.
  - eapply rolling_mean_ge; [|exact H]. apply fast_k_Forall. intros; lra.
  - eapply rolling_mean_le; [|exact H]. apply fast_k_Forall. intros; lra.
Qed.

Lemma stoch_k_Forall (P : Q → Prop) k_period smooth_k :
  (∀ v, 0 <= v <= 100 → P v) →
  Forall (fun x => ∀ q, x = Fin q → P q) (stoch_k data k_period smooth_k).
Proof.
  intros HP. apply Forall_lookup. intros i x Hx q ->.
  destruct (stoch_k_range _ _ _ _ Hx) as [|(v & [= <-] & Hv)]; [done|]. by apply HP.
Qed.

Lemma stoch_d_range k_period d_period smooth_k i x :
  stoch_d data k_period d_period smooth_k !! i = Some x →
  x = NaN ∨ ∃ v, x = Fin v ∧ 0 <= v <= 100.
Proof.
  intros H. destruct (rolling_mean_value _ _ _ _ H) as [->|[v ->]]; [by left|].
  right. exists v. split; [done|]. split.
  - eapply rolling_mean_ge; [|exact H]. apply stoch_k_Forall. intros; lra.
  - eapply rolling_mean_le; [|exact H]. apply stoch_k_Forall. intros; lra.
Qed.
End stochastic_bounds.

(** X2.  When every bar has its close between its low and its high, every
    value of %K and of %D is NaN or a number between 0 and 100. *)
Theorem stochastic_range (data : DataFrame) (k_period d_period smooth_k i : nat)
    (x : float64) :
  Forall (fun b => F.leb (Low b) (Close b) = true ∧ F.leb (Close b) (High b) = true)
         data →
  (calculate_stochastic data k_period d_period smooth_k).1 !! i = Some x
  ∨ (calculate_stochastic data k_period d_period smooth_k).2 !! i = Some x →
  x = NaN ∨ ∃ v, x = Fin v ∧ 0 <= v <= 100.
Proof.
  intros Hbars [H|H]; simpl in H.
  - by eapply stoch_k_range.
  - by eapply stoch_d_range.
Qed.

Lemma stochastic_range_witness :
  ∃ v, (calculate_stochastic obv_sample 2 1 2).1 !! 2%nat = Some (Fin v)
       ∧ 0 <= v <= 100.
Proof.
  destruct (stochastic_range obv_sample 2 1 2 2 (Fin 50)) as [H|(v & H & Hv)];
    [repeat constructor | left; vm_compute; reflexivity | discriminate H |].
  exists v. split; [|exact Hv]. rewrite <- H. vm_compute. reflexivity.
Defined.

(** ** The true range and its average *)

Lemma nanmax_not_below_zero (x y : float64) :
  not_below_zero x → not_below_zero y → not_below_zero (Pd.nanmax x y).
Proof.
  unfold Pd.nanmax. destruct (F.isnan x); [done|].
  destruct (F.isnan y); [done|]. by destruct (F.ltb x y).
Qed.

Lemma abs_not_below_zero (x : float64) : not_below_zero (F.abs x).
Proof.
  destruct x as [| | |q]; simpl; try done.
  rewrite Qred_correct. apply Qabs_nonneg.
Qed.

Lemma sub_not_below_zero (h l : float64) :
  F.leb l h = true → not_below_zero (F.sub h l).
Proof.
  destruct h as [| | |hq], l as [| | |lq]; simpl; try done.
  intros H. apply Qle_bool_iff in H. rewrite Qred_correct. lra.
Qed.

(** X3.  The true range of the first bar is its high minus its low: there
    is no previous close, and the two terms that need one are skipped. *)
Theorem true_range_first_bar (b : bar) (data : DataFrame) :
  atr_true_range (b :: data) !! 0%nat = Some (F.sub (High b) (Low b)).
Proof.
  unfold atr_true_range, Pd.row_max3, atr_high_low, atr_high_close, atr_low_close.
  simpl. f_equal. unfold Pd.nanmax.
  destruct (High b), (Low b); reflexivity.
Qed.

Lemma true_range_not_below_zero (data : DataFrame) :
  Forall (fun b => F.leb (Low b) (High b) = true) data →
  Forall not_below_zero (atr_true_range data).
Proof.
  intros Hbars. apply Forall_lookup. intros i x Hx.
  unfold atr_true_range, Pd.row_max3 in Hx.
  rewrite !lookup_zip_with in Hx.
  destruct (atr_high_low data !! i) as [a|] eqn:Ea; [|done].
  destruct (atr_high_close data !! i) as [c|] eqn:Ec; [|done].
  destruct (atr_low_close data !! i) as [d|] eqn:Ed; [|done].
  simpl in Hx. injection Hx as <-.
  unfold atr_high_low in Ea. rewrite lookup_zip_with, !list_lookup_fmap in Ea.
  destruct (data !! i) as [b|] eqn:Eb; [|done]. simpl in Ea. injection Ea as <-.
  unfold atr_high_close in Ec. rewrite list_lookup_fmap in Ec.
  destruct (zip_with F.sub _ _ !! i) as [c'|]; [|done]. injection Ec as <-.
  unfold atr_low_close in Ed. rewrite list_lookup_fmap in Ed.
  destruct (zip_with F.sub _ _ !! i) as [d'|]; [|done]. injection Ed as <-.
  repeat apply nanmax_not_below_zero; try apply abs_not_below_zero.
  apply sub_not_below_zero. exact (proj1 (Forall_lookup _ _) Hbars i b Eb).
Qed.

(** X4.  When no bar has its low above its high, every value of the ATR
    is NaN or a number that is not negative. *)
Theorem atr_not_negative (data : DataFrame) (window i : nat) (x : float64) :
  Forall (fun b => F.leb (Low b) (High b) = true) data →
  calculate_atr data window !! i = Some x →
  x = NaN ∨ ∃ v, x = Fin v ∧ 0 <= v.
Proof.
  intros Hbars H. unfold calculate_atr in H.
  destruct (rolling_mean_value _ _ _ _ H) as [->|[v ->]]; [by left|].
  right. exists v. split; [done|].
  eapply rolling_mean_ge; [|exact H].
  eapply Forall_impl; [by apply true_range_not_below_zero|].
  intros y Hy q ->. exact Hy.
Qed.

Lemma atr_not_negative_witness :
  ∃ v, calculate_atr obv_sample 2 !! 1%nat = Some (Fin v) ∧ 0 <= v.
Proof.
  destruct (atr_not_negative obv_sample 2 1 (Fin 3)) as [H|(v & H & Hv)];
    [repeat constructor | vm_compute; reflexivity | discriminate H |].
  exists v. split; [|exact Hv]. rewrite <- H. vm_compute. reflexivity.
Defined.

(** ** On-balance volume: the empty frame and the values *)

(** X5.  [calculate_on_balance_volume] raises exactly on the empty frame,
    and what it raises is [IndexError]. *)
Theorem obv_raises_iff_empty (data : DataFrame) (e : exn) :
  calculate_on_balance_volume data = inl e ↔ data = [] ∧ e = IndexError.
Proof.
  split.
  - intros H. destruct data as [|b data].
    + vm_compute in H. by injection H as <-.
    + destruct (obv_loop_spec (b :: data)) as (obv & E & _); [done|]. congruence.
  - intros [-> ->]. reflexivity.
Qed.

Lemma Qred_inject_Z (z : Z) : Qred (inject_Z z) = inject_Z z.
Proof. apply Qcanon.Qred_identity. simpl. apply Z.gcd_1_r. Qed.

Lemma add_integers (a b : Z) :
  F.add (F.of_Z a) (F.of_Z b) = F.of_Z (a + b).
Proof.
  unfold F.of_Z, F.add. f_equal. rewrite <- (Qred_inject_Z (a + b)).
  apply Qred_complete. by rewrite inject_Z_plus.
Qed.

Lemma sub_integers (a b : Z) :
  F.sub (F.of_Z a) (F.of_Z b) = F.of_Z (a - b).
Proof.
  unfold F.of_Z, F.sub. f_equal. rewrite <- (Qred_inject_Z (a - b)).
  apply Qred_complete.
  unfold Z.sub. rewrite inject_Z_plus, inject_Z_opp. reflexivity.
Qed.

(** X6.  On a non-empty frame every value of the OBV is a whole number:
    no position is left NaN, whatever the closes are. *)
Theorem obv_values_whole (data : DataFrame) (obv : Pd.Series) (i : nat) :
  calculate_on_balance_volume data = inr obv →
  (i < length data)%nat →
  ∃ z : Z, obv !! i = Some (F.of_Z z).
Proof.
  intros E Hi.
  assert (Hne : data ≠ []) by (intros ->; simpl in Hi; lia).
  destruct (obv_loop_spec data Hne) as (obv' & E' & Hlen & H0 & Hrule).
  rewrite E in E'. injection E' as <-.
  induction i as [|i IH].
  - exists 0%Z. exact H0.
  - destruct IH as [z Hz]; [lia|].
    destruct (lookup_lt_is_Some_2 data (S i) Hi) as [b_i Ei].
    destruct (lookup_lt_is_Some_2 data i) as [b_p Ep]; [lia|].
    destruct (Hrule (S i) b_i b_p) as (prev & Eprev & Eobv).
    { lia. }
    { exact Ei. }
    { by rewrite Nat.sub_1_r. }
    rewrite Nat.sub_1_r in Eprev. simpl in Eprev.
    rewrite Hz in Eprev. injection Eprev as <-.
    rewrite Eobv. unfold obv_rule.
    destruct (F.gtb _ _); [|destruct (F.ltb _ _)].
    + exists (z + Volume b_i)%Z. by rewrite add_integers.
    + exists (z - Volume b_i)%Z. by rewrite sub_integers.
    + by exists z.
Qed.

Lemma obv_values_whole_witness :
  ∃ z : Z, [Fin 0; Fin 150; Fin 30; Fin 30] !! 2%nat = Some (F.of_Z z).
Proof.
  apply (obv_values_whole obv_sample [Fin 0; Fin 150; Fin 30; Fin 30] 2);
    [vm_compute; reflexivity | simpl; lia].
Defined.

Lemma obv_raises_iff_empty_witness :
  calculate_on_balance_volume [] = inl IndexError.
Proof. apply (obv_raises_iff_empty [] IndexError). split; reflexivity. Defined.

(** ** A flat series *)

Lemma finite_values_replicate (c : Q) (n : nat) :
  Pd.finite_values (replicate n (Fin c)) = Some (replicate n c).
Proof.
  induction n as [|n IH]; [reflexivity|].
  unfold Pd.finite_values in *. simpl. rewrite IH. reflexivity.
Qed.

Lemma Qsum_replicate (n : nat) (q : Q) :
  Pd.Qsum (replicate n q) == inject_Z (Z.of_nat n) * q.
Proof.
  induction n as [|n IH]; [reflexivity|].
  change (Pd.Qsum (replicate (S n) q)) with (q + Pd.Qsum (replicate n q)).
  rewrite IH, Nat2Z.inj_succ. unfold Z.succ. rewrite inject_Z_plus.
  change (inject_Z 1) with 1. ring.
Qed.

Lemma window_at_replicate (w i n : nat) (x : float64) :
  (w <= S i)%nat → (i < n)%nat →
  Pd.window_at w i (replicate n x) = replicate w x.
Proof.
  intros Hw Hi. unfold Pd.window_at.
  rewrite drop_replicate, take_replicate. f_equal. lia.
Qed.

Lemma mean_replicate (c : Q) (w : nat) :
  (1 <= w)%nat → Pd.mean (replicate w c) = Fin (Qred c).
Proof.
  intros Hw. destruct (mean_value (replicate w c)) as [E|(m & E & Hm & _)].
  - destruct w; [lia|]. unfold Pd.mean in E. simpl length in E.
    unfold F.of_nat, F.of_Z, F.div in E.
    destruct (Qeq_bool _ 0) eqn:E0; [|done].
    apply Qeq_bool_iff in E0.
    assert (0 < inject_Z (Z.of_nat (S (length (replicate w c))))).
    { change 0 with (inject_Z 0). rewrite <- Zlt_Qlt. lia. }
    lra.
  - rewrite E. unfold Pd.mean in E. rewrite length_replicate in *.
    unfold F.of_nat, F.of_Z, F.div in E.
    destruct (Qeq_bool _ 0); [by destruct (F.sgn _)|].
    injection E as <-. f_equal. apply Qred_complete.
    rewrite Qsum_replicate.
    assert (0 < inject_Z (Z.of_nat w)).
    { change 0 with (inject_Z 0). rewrite <- Zlt_Qlt. lia. }
    field. lra.
Qed.

(** X7.  On a series that is flat at [c], the moving average is [c] at
    every position that has a full window. *)
Theorem sma_flat (data : DataFrame) (column : bar → float64) (c : Q)
    (window i : nat) :
  column <$> data = replicate (length data) (Fin c) →
  (1 <= window <= S i)%nat → (i < length data)%nat →
  sma_ma data window column !! i = Some (Fin (Qred c)).
Proof.
  intros flat Hw Hi. unfold sma_ma, Pd.rolling_mean.
  rewrite lookup_rolling by (by rewrite length_fmap).
  destruct (decide (window <= S i)%nat); [|lia].
  rewrite flat, window_at_replicate by lia.
  rewrite finite_values_replicate. simpl. f_equal.
  apply mean_replicate. lia.
Qed.

Lemma ewm_run_flat (alpha old_wt : Q) (x : Q) (n : nat) :
  Pd.ewm_run alpha (Fin x, old_wt) (replicate n (Fin x)) = replicate n (Fin x).
Proof.
  revert old_wt. induction n as [|n IH]; intros old_wt; [reflexivity|].
  simpl. assert (Qeq_bool x x = true) as -> by (apply Qeq_bool_iff; reflexivity).
  simpl. by rewrite IH.
Qed.

Lemma ewm_mean_flat (span n : nat) (x : Q) :
  (1 <= span)%nat →
  Pd.ewm_mean span (replicate n (Fin x)) = inr (replicate n (Fin x)).
Proof.
  intros Hspan. unfold Pd.ewm_mean.
  destruct (decide (span < 1)%nat); [lia|].
  rewrite fmap_replicate. cbn [Pd.prep_value F.is_finite].
  destruct n as [|n]; [reflexivity|]. simpl.
  by rewrite ewm_run_flat.
Qed.

(** X8.  On a flat series the exponential moving average of every span is
    the series itself. *)
Theorem ema_flat (data : DataFrame) (column : bar → float64) (c : Q) (span : nat) :
  column <$> data = replicate (length data) (Fin c) →
  (1 <= span)%nat → ema_ema data span column = inr (column <$> data).
Proof.
  intros flat Hspan. unfold ema_ema. rewrite flat. by apply ewm_mean_flat.
Qed.

Lemma sub_replicate (n : nat) (x : Q) :
  zip_with F.sub (replicate n (Fin x)) (replicate n (Fin x)) = replicate n (Fin 0).
Proof.
  induction n as [|n IH]; [reflexivity|]. simpl. rewrite IH. do 2 f_equal.
  change 0 with (Qred 0). apply Qred_complete. ring.
Qed.

(** X9.  On a flat series the MACD line, the signal line and the histogram
    are zero at every position. *)
Theorem macd_flat (data : DataFrame) (column : bar → float64) (c : Q)
    (fast_period slow_period signal_period : nat) :
  column <$> data = replicate (length data) (Fin c) →
  (1 <= fast_period)%nat → (1 <= slow_period)%nat → (1 <= signal_period)%nat →
  let zeros := replicate (length data) (Fin 0) in
  calculate_macd data fast_period slow_period signal_period column
  = inr (zeros, zeros, zeros).
Proof.
  intros flat Hf Hs Hg zeros. unfold calculate_macd.
  rewrite flat, !ewm_mean_flat by done. simpl.
  rewrite sub_replicate, ewm_mean_flat by done. simpl.
  by rewrite sub_replicate.
Qed.

Lemma deltas_replicate (n : nat) (c : Q) :
  Forall (fun d => d == 0) (deltas (replicate n c)).
Proof.
  induction n as [|n IH]; [constructor|].
  destruct n as [|n]; [constructor|].
  change (deltas (replicate (S (S n)) c))
    with ((c - c) :: deltas (replicate (S n) c)).
  constructor; [ring | exact IH].
Qed.

(** X10.  On a flat series the RSI is NaN at every position: no gain and
    no loss leave the ratio 0/0. *)
Theorem rsi_undefined_on_flat_series (data : DataFrame) (column : bar → float64) (c : Q)
    (window i : nat) (x : float64) :
  column <$> data = replicate (length data) (Fin c) →
  calculate_rsi data window column !! i = Some x →
  x = NaN.
Proof.
  intros Hflat H.
  assert (Hdelta : Forall (fun d => d = NaN ∨ d = Fin 0) (rsi_delta data column)).
  { unfold rsi_delta. rewrite Hflat. destruct (length data) as [|n]; [constructor|].
    rewrite <- (fmap_replicate Fin).
    change (replicate (S n) c) with (c :: replicate n c) at 1.
    rewrite diff_closes. constructor; [by left|].
    apply Forall_fmap.
    eapply Forall_impl; [apply (deltas_replicate (S n) c)|].
    intros d Hd. right. simpl. f_equal.
    change 0 with (Qred 0). by apply Qred_complete. }
  assert (Hgain : Forall (fun g => ∀ q, g = Fin q → q == 0) (rsi_gain data column)).
  { unfold rsi_gain, Pd.where_. rewrite zip_with_fmap_r. apply Forall_fmap.
    eapply Forall_impl; [exact Hdelta|]. intros d [->| ->] q; simpl;
      intros [= <-]; reflexivity. }
  assert (Hloss : Forall (fun g => ∀ q, g = Fin q → q == 0) (rsi_loss data column)).
  { unfold rsi_loss, Pd.where_. rewrite zip_with_fmap_r, <- list_fmap_compose.
    apply Forall_fmap.
    eapply Forall_impl; [exact Hdelta|]. intros d [->| ->] q; simpl;
      intros [= <-]; reflexivity. }
  unfold calculate_rsi, rsi_rs in H.
  rewrite list_lookup_fmap, lookup_zip_with in H.
  destruct (rsi_avg_gain data window column !! i) as [g|] eqn:Eg; [|done].
  destruct (rsi_avg_loss data window column !! i) as [l|] eqn:El; [|done].
  simpl in H. injection H as <-.
  destruct (rolling_mean_value _ _ _ _ Eg) as [->|[ag ->]]; [done|].
  destruct (rolling_mean_value _ _ _ _ El) as [->|[al ->]]; [done|].
  assert (Hag : ag == 0).
  { apply Qle_antisym.
    - eapply rolling_mean_le; [|exact Eg].
      eapply Forall_impl; [exact Hgain|]. intros y Hy q Hq. rewrite (Hy q Hq). lra.
    - eapply rolling_mean_ge; [|exact Eg].
      eapply Forall_impl; [exact Hgain|]. intros y Hy q Hq. rewrite (Hy q Hq). lra. }
  assert (Hal : al == 0).
  { apply Qle_antisym.
    - eapply rolling_mean_le; [|exact El].
      eapply Forall_impl; [exact Hloss|]. intros y Hy q Hq. rewrite (Hy q Hq). lra.
    - eapply rolling_mean_ge; [|exact El].
      eapply Forall_impl; [exact Hloss|]. intros y Hy q Hq. rewrite (Hy q Hq). lra. }
  unfold F.div. assert (Qeq_bool al 0 = true) as -> by by apply Qeq_bool_iff.
  unfold F.sgn. assert ((0 ?= ag) = Eq) as ->; [|reflexivity].
  apply Qeq_alt. by symmetry.
Qed.

Lemma sma_flat_witness : sma_ma flat_bars 2 Close !! 2%nat = Some (Fin 10).
Proof.
  apply (sma_flat flat_bars Close 10); [reflexivity | lia | simpl; lia].
Defined.

Lemma ema_flat_witness :
  ema_ema flat_bars 20 Close = inr [Fin 10; Fin 10; Fin 10].
Proof. apply (ema_flat flat_bars Close 10); [reflexivity | lia]. Defined.

Lemma macd_flat_witness :
  calculate_macd flat_bars 12 26 9 Close
  = inr ([Fin 0; Fin 0; Fin 0], [Fin 0; Fin 0; Fin 0], [Fin 0; Fin 0; Fin 0]).
Proof. apply (macd_flat flat_bars Close 10); [reflexivity | lia..]. Defined.

Lemma rsi_undefined_on_flat_series_witness :
  ∃ x, calculate_rsi flat_bars 2 Close !! 2%nat = Some x ∧ x = NaN.
Proof.
  exists NaN. split; [vm_compute; reflexivity|].
  apply (rsi_undefined_on_flat_series flat_bars Close 10 2 2 NaN);
    [reflexivity | vm_compute; reflexivity].
Defined.

(** * Further properties of the chart *)

(** ** The request as a set *)

(** X11.  Two requests that contain the same ones of the eight indicator
    names give the same chart: the order of the names, their repetitions
    and any other name in the list do not matter. *)
Theorem chart_depends_on_membership (data : DataFrame) (inds1 inds2 : list string) :
  (∀ c : calculator, requested (key c) inds1 = requested (key c) inds2) →
  create_technical_chart data (Some inds1) = create_technical_chart data (Some inds2).
Proof.
  intros H.
  pose proof (H SMA) as H1. pose proof (H EMA) as H2.
  pose proof (H Bollinger) as H3. pose proof (H RSI) as H4.
  pose proof (H MACD) as H5. pose proof (H Stochastic) as H6.
  pose proof (H ATR) as H7. pose proof (H OBV) as H8.
  simpl key in *.
  unfold create_technical_chart, count_subplots, sub_panel. simpl default.
  rewrite H1, H2, H3, H4, H5, H6, H7, H8. reflexivity.
Qed.

Lemma chart_depends_on_membership_witness :
  create_technical_chart one_bar (Some ["macd"; "rsi"])
  = create_technical_chart one_bar (Some ["rsi"; "volume"; "macd"; "rsi"]).
Proof.
  apply (chart_depends_on_membership one_bar).
  intros c. destruct c; reflexivity.
Defined.

(** ** The page *)

Lemma page_request_panels (boxes : indicator_boxes) :
  let inds := selected_indicators boxes in
  number_panels 1 [requested "rsi" inds; requested "macd" inds;
                   requested "stoch" inds; requested "atr" inds;
                   requested "obv" inds]
  = [request_panel inds RSI; request_panel inds MACD; request_panel inds Stochastic;
     request_panel inds ATR; request_panel inds OBV]
  ∧ count_subplots inds = S (length (ticked_oscillators boxes)).
Proof.
  destruct boxes as [[] [] [] [] [] [] [] []]; vm_compute; split; reflexivity.
Qed.

(** X12.  The page shows its warning exactly for the empty frame and never
    an error from the chart: for a frame with bars it shows a chart with
    one row for the price and one for each oscillator box that is ticked. *)
Theorem page_never_fails (stock_data : DataFrame) (boxes : indicator_boxes) :
  match (technical_page stock_data boxes).2 with
  | NoData => stock_data = []
  | Chart fig =>
      stock_data ≠ [] ∧ rows fig = S (length (ticked_oscillators boxes))
  | ChartError _ => False
  end.
Proof.
  destruct stock_data as [|b data]; [reflexivity|].
  unfold technical_page.
  pose proof (chart_nonempty_flags b data (selected_indicators boxes)) as H.
  destruct (create_technical_chart (b :: data) (Some (selected_indicators boxes)))
    as [log [e|fig]]; cbn [snd] in *; [done|].
  destruct H as (Hrows & _). split; [done|].
  rewrite Hrows. apply page_request_panels.
Qed.

(** X13.  On the page the panels do follow the request: for a frame with
    bars, every oscillator has the panel of its position among the
    oscillators of the list the page builds. *)
Theorem page_panels_in_request_order (stock_data : DataFrame)
    (boxes : indicator_boxes) (c : calculator) :
  stock_data ≠ [] →
  c ∈ oscillators →
  ∃ fig, (technical_page stock_data boxes).2 = Chart fig
    ∧ panel_of fig c = request_panel (selected_indicators boxes) c.
Proof.
  intros Hne Hc. destruct stock_data as [|b data]; [done|].
  unfold technical_page.
  pose proof (chart_nonempty_flags b data (selected_indicators boxes)) as H.
  destruct (create_technical_chart (b :: data) (Some (selected_indicators boxes)))
    as [log [e|fig]]; cbn [snd] in *; [done|].
  destruct H as (_ & _ & Hpanels & _).
  exists fig. split; [done|].
  rewrite (proj1 (page_request_panels boxes)) in Hpanels.
  unfold oscillators in Hc.
  repeat (apply elem_of_cons in Hc as [->|Hc]; [congruence|]).
  by apply elem_of_nil in Hc.
Qed.

Lemma page_panels_in_request_order_witness :
  ∃ fig, (technical_page one_bar default_boxes).2 = Chart fig
    ∧ panel_of fig MACD = Some 2%nat.
Proof.
  apply (page_panels_in_request_order one_bar default_boxes MACD);
    [discriminate | repeat constructor].
Defined.

(** ** The calculators a chart runs *)

(** X14.  On a frame with bars the chart runs the calculator of every
    requested indicator once (the moving average twice, for its two
    windows), in the order of the code, and no other calculator. *)
Theorem chart_invokes_requested (data : DataFrame) (indicators : option (list string)) :
  data ≠ [] →
  let inds := default ["sma"; "ema"; "bollinger"] indicators in
  (create_technical_chart data indicators).1
  = (log_if "sma" inds [SMA; SMA] ++ log_if "ema" inds [EMA]
     ++ log_if "bollinger" inds [Bollinger] ++ log_if "rsi" inds [RSI]
     ++ log_if "macd" inds [MACD] ++ log_if "stoch" inds [Stochastic]
     ++ log_if "atr" inds [ATR] ++ log_if "obv" inds [OBV])%list.
Proof.
  intros Hne inds. destruct data as [|b data]; [done|].
  change (create_technical_chart (b :: data) indicators)
    with (create_technical_chart (b :: data) (Some inds)).
  generalize inds. clear inds indicators Hne. intros inds.
  destruct (iloc_last_cons (Date b) (Date <$> data)) as [z Hz].
  change (Date b :: (Date <$> data)) with (Date <$> b :: data) in Hz.
  destruct (obv_loop_spec (b :: data)) as (obv & Hobv & _); [done|].
  destruct (ewm_mean_ok 20 obv) as (obv_ema & Hobv_ema & _); [lia|].
  destruct (ewm_mean_ok 20 (Close <$> b :: data)) as (ema & Hema & _); [lia|].
  destruct (macd_ok (b :: data) 12 26 9 Close) as (ml & sl & hg & Hmacd & _); [lia..|].
  assert (Hfirst : Pd.iloc (Date <$> b :: data) 0 = inr (Date b)) by reflexivity.
  unfold create_technical_chart, sub_panel, add_moving_average,
    add_exponential_moving_average, add_bollinger_bands, add_rsi, add_macd,
    add_stochastic, add_atr, add_obv, level_line, calculate_stochastic, ema_ema.
  simpl default.
  rewrite Hfirst, Hz, Hobv, Hema, Hmacd.
  cbv beta iota delta [mbind M_bind invoke].
  rewrite Hobv_ema.
  clear Hfirst Hz Hobv Hema Hmacd Hobv_ema.
  generalize (sma_ma (b :: data) 50 Close), (sma_ma (b :: data) 200 Close),
    (boll_ma (b :: data) 20 Close), (boll_upper_band (b :: data) 20 (Fin 2) Close),
    (boll_lower_band (b :: data) 20 (Fin 2) Close),
    (calculate_rsi (b :: data) 14 Close), (stoch_k (b :: data) 14 3),
    (stoch_d (b :: data) 14 3 3), (calculate_atr (b :: data) 14).
  generalize
    ((fun b0 : bar => if F.geb (Close b0) (Open b0) then "#26A69A" else "#EF5350")
       <$> b :: data),
    (F.of_Z ∘ Volume <$> b :: data), (Open <$> b :: data), (High <$> b :: data),
    (Low <$> b :: data), (Close <$> b :: data), (Date <$> b :: data), (Date b).
  unfold count_subplots, log_if.
  flags inds. clear.
  intros [] [] [] [] [] [] [] []; intros; vm_compute; reflexivity.
Qed.

Lemma chart_invokes_requested_witness :
  (create_technical_chart one_bar (Some ["obv"; "sma"])).1 = [SMA; SMA; OBV].
Proof.
  apply (chart_invokes_requested one_bar (Some ["obv"; "sma"])). discriminate.
Defined.

(** ** What adding an indicator leaves alone *)

Lemma M_bind_inr {A B : Type} (m : M A) (k : A → M B) (y : B) :
  (m ≫= k).2 = inr y → ∃ x, m.2 = inr x ∧ (k x).2 = inr y.
Proof.
  destruct m as [log [e|a]]; simpl; [done|].
  intros H. exists a. split; [done|]. by destruct (k a).
Qed.

Lemma extends_refl (row : nat) (fig : figure) : extends row fig fig.
Proof.
  repeat split. exists []. by rewrite app_nil_r.
Qed.

Lemma extends_trans (row : nat) (a b c : figure) :
  extends row a b → extends row b c → extends row a c.
Proof.
  intros (R1 & H1 & X1 & A1 & Y1 & n1 & T1 & F1) (R2 & H2 & X2 & A2 & Y2 & n2 & T2 & F2).
  split; [congruence|]. split; [congruence|]. split; [congruence|].
  split; [congruence|]. split.
  - intros r Hr. by rewrite Y2, Y1.
  - exists (n1 ++ n2)%list. split.
    + by rewrite T2, T1, app_assoc.
    + by apply Forall_app.
Qed.

Lemma add_trace_extends (fig fig' : figure) (t : trace) (row : nat) :
  add_trace fig t row = inr fig' → extends row fig fig'.
Proof.
  unfold add_trace. destruct (in_grid fig row); [|done].
  intros [= <-]. repeat split. exists [(t, row)]. split; [done|].
  by repeat constructor.
Qed.

Lemma update_yaxes_extends (fig fig' : figure) (title_text : string) (row : nat) :
  update_yaxes fig title_text row = inr fig' → extends row fig fig'.
Proof.
  unfold update_yaxes. destruct (in_grid fig row); [|done].
  intros [= <-]. repeat split; simpl.
  - intros r Hr. by rewrite lookup_insert_ne.
  - exists []. by rewrite app_nil_r.
Qed.

Lemma level_line_extends (fig fig' : figure) (data : DataFrame) (name : string)
    (level : Z) (row : nat) :
  level_line fig data name level row = inr fig' → extends row fig fig'.
Proof.
  unfold level_line.
  destruct (Pd.iloc (Date <$> data) 0) as [e|first]; [done|].
  destruct (Pd.iloc_last (Date <$> data)) as [e|last]; [done|].
  simpl. apply add_trace_extends.
Qed.

(** One step of an [add_...] function: the bind is split, and a step on
    the figure is turned into [extends]. *)
Ltac m_step H x Hx :=
  apply M_bind_inr in H as (x & Hx & H); cbn [snd lift invoke] in Hx.

Section add_extends.
Variables (fig fig' : figure) (data : DataFrame) (row : nat).

Lemma add_moving_average_extends window column name :
  (add_moving_average fig data window column name row).2 = inr fig' →
  extends row fig fig'.
Proof.
  unfold add_moving_average. intros H. m_step H ma Hma.
  by apply add_trace_extends in H.
Qed.

Lemma add_exponential_moving_average_extends window column name :
  (add_exponential_moving_average fig data window column name row).2 = inr fig' →
  extends row fig fig'.
Proof.
  unfold add_exponential_moving_average. intros H. m_step H ema Hema.
  by apply add_trace_extends in H.
Qed.

Lemma add_bollinger_bands_extends window num_std column :
  (add_bollinger_bands fig data window num_std column row).2 = inr fig' →
  extends row fig fig'.
Proof.
  unfold add_bollinger_bands. intros H. m_step H bands Hb.
  destruct bands as [[ma upper] lower].
  m_step H f1 H1. m_step H f2 H2. m_step H f3 H3. m_step H f4 H4.
  apply add_trace_extends in H1, H2, H3, H4, H.
  repeat (eapply extends_trans; [eassumption|]). apply extends_refl.
Qed.

Lemma add_rsi_extends window column :
  (add_rsi fig data window column row).2 = inr fig' → extends row fig fig'.
Proof.
  unfold add_rsi. intros H. m_step H rsi Hrsi.
  m_step H f1 H1. m_step H f2 H2. m_step H f3 H3. m_step H f4 H4.
  apply add_trace_extends in H1. apply level_line_extends in H2, H3, H4.
  apply update_yaxes_extends in H.
  repeat (eapply extends_trans; [eassumption|]). apply extends_refl.
Qed.

Lemma add_macd_extends fast_period slow_period signal_period column :
  (add_macd fig data fast_period slow_period signal_period column row).2 = inr fig' →
  extends row fig fig'.
Proof.
  unfold add_macd. intros H. m_step H lines Hl.
  destruct lines as [[macd_line signal_line] histogram].
  m_step H f1 H1. m_step H f2 H2. m_step H f3 H3.
  apply add_trace_extends in H1, H2, H3. apply update_yaxes_extends in H.
  repeat (eapply extends_trans; [eassumption|]). apply extends_refl.
Qed.

Lemma add_stochastic_extends k_period d_period smooth_k :
  (add_stochastic fig data k_period d_period smooth_k row).2 = inr fig' →
  extends row fig fig'.
Proof.
  unfold add_stochastic. intros H. m_step H kd Hkd. destruct kd as [k d].
  m_step H f1 H1. m_step H f2 H2. m_step H f3 H3. m_step H f4 H4.
  apply add_trace_extends in H1, H2. apply level_line_extends in H3, H4.
  apply update_yaxes_extends in H.
  repeat (eapply extends_trans; [eassumption|]). apply extends_refl.
Qed.

Lemma add_atr_extends window :
  (add_atr fig data window row).2 = inr fig' → extends row fig fig'.
Proof.
  unfold add_atr. intros H. m_step H atr Hatr. m_step H f1 H1.
  apply add_trace_extends in H1. apply update_yaxes_extends in H.
  repeat (eapply extends_trans; [eassumption|]). apply extends_refl.
Qed.

Lemma add_obv_extends :
  (add_obv fig data row).2 = inr fig' → extends row fig fig'.
Proof.
  unfold add_obv. intros H. m_step H obv Hobv. m_step H f1 H1.
  m_step H obv_ema Hema. m_step H f2 H2.
  apply add_trace_extends in H1, H2. apply update_yaxes_extends in H.
  repeat (eapply extends_trans; [eassumption|]). apply extends_refl.
Qed.
End add_extends.

(** X15.  Each of the eight [add_...] functions, when it returns, returns
    the figure it was given with traces added at the end, all on the row
    it was given: the earlier traces, the grid, the weights, the x-axes,
    the annotations and the y-axis titles of the other rows are as they
    were. *)
Theorem add_indicator_extends (fig fig' : figure) (data : DataFrame) (row : nat)
    (w1 w2 w3 : nat) (num_std : float64) (column : bar → float64)
    (name : option string) :
  (add_moving_average fig data w1 column name row).2 = inr fig'
  ∨ (add_exponential_moving_average fig data w1 column name row).2 = inr fig'
  ∨ (add_bollinger_bands fig data w1 num_std column row).2 = inr fig'
  ∨ (add_rsi fig data w1 column row).2 = inr fig'
  ∨ (add_macd fig data w1 w2 w3 column row).2 = inr fig'
  ∨ (add_stochastic fig data w1 w2 w3 row).2 = inr fig'
  ∨ (add_atr fig data w1 row).2 = inr fig'
  ∨ (add_obv fig data row).2 = inr fig' →
  extends row fig fig'.
Proof.
  intros [H|[H|[H|[H|[H|[H|[H|H]]]]]]].
  - by eapply add_moving_average_extends.
  - by eapply add_exponential_moving_average_extends.
  - by eapply add_bollinger_bands_extends.
  - by eapply add_rsi_extends.
  - by eapply add_macd_extends.
  - by eapply add_stochastic_extends.
  - by eapply add_atr_extends.
  - by eapply add_obv_extends.
Qed.

Lemma add_indicator_extends_witness :
  ∃ fig', (add_atr two_rows obv_sample 2 2).2 = inr fig'
          ∧ extends 2 two_rows fig'.
Proof.
  eexists. split; [vm_compute; reflexivity|].
  apply (add_indicator_extends two_rows _ obv_sample 2 2 0 0 (Fin 2) Close None).
  do 6 right. left. vm_compute. reflexivity.
Defined.

(** ** The [add_...] functions on an empty frame *)

Lemma add_trace_in_grid (fig : figure) (t : trace) (row : nat) :
  in_grid fig row = true →
  ∃ fig', add_trace fig t row = inr fig' ∧ in_grid fig' row = true.
Proof. intros E. unfold add_trace. rewrite E. eauto. Qed.

Lemma add_trace_off_grid (fig : figure) (t : trace) (row : nat) :
  in_grid fig row = false → add_trace fig t row = inl PlotlyError.
Proof. intros E. unfold add_trace. by rewrite E. Qed.

Lemma update_yaxes_in_grid (fig : figure) (title_text : string) (row : nat) :
  in_grid fig row = true →
  ∃ fig', update_yaxes fig title_text row = inr fig' ∧ in_grid fig' row = true.
Proof. intros E. unfold update_yaxes. rewrite E. eauto. Qed.

Lemma level_line_empty (fig : figure) (name : string) (level : Z) (row : nat) :
  level_line fig [] name level row = inl IndexError.
Proof. reflexivity. Qed.

Ltac run_binds :=
  cbv beta iota delta [mbind M_bind invoke lift mret result_ret M_ret snd].

Ltac step_trace :=
  match goal with
  | |- context [add_trace ?g ?t ?r] =>
      let f := fresh "f" in
      let Ef := fresh "E" in
      destruct (add_trace_in_grid g t r) as (f & -> & Ef); [assumption|];
      run_binds
  end.

Ltac step_yaxes :=
  match goal with
  | |- context [update_yaxes ?g ?t ?r] =>
      let f := fresh "f" in
      let Ef := fresh "E" in
      destruct (update_yaxes_in_grid g t r) as (f & -> & Ef); [assumption|];
      run_binds
  end.

(** X16.  On an empty frame [add_rsi] and [add_stochastic] raise for every
    figure and row ([IndexError] from the first date when the row is in
    the grid), and [add_obv] raises [IndexError] before it touches the
    figure; the other five return a figure whenever the row is in the
    grid (the exponential average and MACD for spans of at least 1). *)
Theorem indicators_on_empty_frame (fig : figure) (row : nat) :
  (∀ window column,
     (add_rsi fig [] window column row).2
     = inl (if in_grid fig row then IndexError else PlotlyError))
  ∧ (∀ k_period d_period smooth_k,
       (add_stochastic fig [] k_period d_period smooth_k row).2
       = inl (if in_grid fig row then IndexError else PlotlyError))
  ∧ add_obv fig [] row = ([OBV], inl IndexError)
  ∧ (in_grid fig row = true →
     (∀ window column name,
        ∃ fig', (add_moving_average fig [] window column name row).2 = inr fig')
     ∧ (∀ window column name, (1 <= window)%nat →
        ∃ fig', (add_exponential_moving_average fig [] window column name row).2
                = inr fig')
     ∧ (∀ window num_std column,
        ∃ fig', (add_bollinger_bands fig [] window num_std column row).2 = inr fig')
     ∧ (∀ fast_period slow_period signal_period column,
        (1 <= fast_period)%nat → (1 <= slow_period)%nat → (1 <= signal_period)%nat →
        ∃ fig', (add_macd fig [] fast_period slow_period signal_period column row).2
                = inr fig')
     ∧ (∀ window, ∃ fig', (add_atr fig [] window row).2 = inr fig')).
Proof.
  split; [|split; [|split; [reflexivity|]]].
  - intros window column. unfold add_rsi. run_binds.
    destruct (in_grid fig row) eqn:E.
    + step_trace. by rewrite level_line_empty.
    + by rewrite add_trace_off_grid.
  - intros k_period d_period smooth_k.
    unfold add_stochastic, calculate_stochastic. run_binds.
    destruct (in_grid fig row) eqn:E.
    + step_trace. step_trace. by rewrite level_line_empty.
    + by rewrite add_trace_off_grid.
  - intros E. repeat split.
    + intros. unfold add_moving_average. run_binds. step_trace. eauto.
    + intros window column name Hw. unfold add_exponential_moving_average.
      destruct (ewm_mean_ok window (column <$> [])) as (e & Ee & _); [done|].
      unfold ema_ema. rewrite Ee. run_binds. step_trace. eauto.
    + intros. unfold add_bollinger_bands. run_binds.
      do 5 step_trace. eauto.
    + intros fast_period slow_period signal_period column Hf Hs Hsig.
      destruct (macd_ok [] fast_period slow_period signal_period column)
        as (m & s & h & Em & _); [done..|].
      unfold add_macd. rewrite Em. run_binds.
      do 3 step_trace. step_yaxes. eauto.
    + intros. unfold add_atr. run_binds. step_trace. step_yaxes. eauto.
Qed.

Lemma indicators_on_empty_frame_witness :
  ∃ fig', (add_atr two_rows [] 14 2).2 = inr fig'.
Proof.
  apply (proj2 (proj2 (proj2 (indicators_on_empty_frame two_rows 2)))).
  reflexivity.
Defined.

(** ** Labels and axes of the chart *)

(** The chart of a frame with bars, with every series replaced by a
    variable and the eight membership tests by booleans. *)
Ltac chart_with_bars b data inds :=
  let z := fresh "z" in
  let Hz := fresh "Hz" in
  let obv := fresh "obv" in
  let Hobv := fresh "Hobv" in
  let obv_ema := fresh "obv_ema" in
  let Hobv_ema := fresh "Hobv_ema" in
  let ema := fresh "ema" in
  let Hema := fresh "Hema" in
  let ml := fresh "ml" in
  let sl := fresh "sl" in
  let hg := fresh "hg" in
  let Hmacd := fresh "Hmacd" in
  let Hfirst := fresh "Hfirst" in
  destruct (iloc_last_cons (Date b) (Date <$> data)) as [z Hz];
  change (Date b :: (Date <$> data)) with (Date <$> b :: data) in Hz;
  destruct (obv_loop_spec (b :: data)) as (obv & Hobv & _); [done|];
  destruct (ewm_mean_ok 20 obv) as (obv_ema & Hobv_ema & _); [lia|];
  destruct (ewm_mean_ok 20 (Close <$> b :: data)) as (ema & Hema & _); [lia|];
  destruct (macd_ok (b :: data) 12 26 9 Close) as (ml & sl & hg & Hmacd & _); [lia..|];
  assert (Hfirst : Pd.iloc (Date <$> b :: data) 0 = inr (Date b)) by reflexivity;
  unfold create_technical_chart, sub_panel, add_moving_average,
    add_exponential_moving_average, add_bollinger_bands, add_rsi, add_macd,
    add_stochastic, add_atr, add_obv, level_line, calculate_stochastic, ema_ema;
  simpl default;
  rewrite Hfirst, Hz, Hobv, Hema, Hmacd;
  cbv beta iota delta [mbind M_bind invoke];
  rewrite Hobv_ema;
  clear Hfirst Hz Hobv Hema Hmacd Hobv_ema;
  generalize (sma_ma (b :: data) 50 Close), (sma_ma (b :: data) 200 Close),
    (boll_ma (b :: data) 20 Close), (boll_upper_band (b :: data) 20 (Fin 2) Close),
    (boll_lower_band (b :: data) 20 (Fin 2) Close),
    (calculate_rsi (b :: data) 14 Close), (stoch_k (b :: data) 14 3),
    (stoch_d (b :: data) 14 3 3), (calculate_atr (b :: data) 14);
  generalize
    ((fun b0 : bar => if F.geb (Close b0) (Open b0) then "#26A69A" else "#EF5350")
       <$> b :: data),
    (F.of_Z ∘ Volume <$> b :: data), (Open <$> b :: data), (High <$> b :: data),
    (Low <$> b :: data), (Close <$> b :: data), (Date <$> b :: data), (Date b);
  unfold count_subplots.

Lemma chart_labels_flags (b : bar) (data : DataFrame) (inds : list string) :
  match (create_technical_chart (b :: data) (Some inds)).2 with
  | inr fig =>
      a_text <$> annotations fig
      = [default "Price Chart"
           (panel_label <$> last (requested_oscillators inds))]
      ∧ yaxis_title fig !! 1%nat = Some "Price"
      ∧ xaxis_title fig = {[rows fig := "Date"]}
  | inl _ => False
  end.
Proof.
  chart_with_bars b data inds.
  unfold requested_oscillators, oscillators.
  rewrite !filter_cons, !filter_nil. cbv beta. simpl key.
  flags inds. clear.
  intros [] [] [] [] [] [] [] []; intros; vm_compute; repeat split.
Qed.

(** X17.  The chart of a frame with bars carries one annotation: the label
    of the last requested oscillator in the order of the code, each label
    taking the place of the one before it, or the title of the price panel
    when no oscillator is requested.  The y-axis of row 1 is titled Price
    and only the last row has its x-axis titled Date. *)
Theorem chart_labels (data : DataFrame) (indicators : option (list string)) :
  data ≠ [] →
  let inds := default ["sma"; "ema"; "bollinger"] indicators in
  ∃ fig, (create_technical_chart data indicators).2 = inr fig
    ∧ a_text <$> annotations fig
      = [default "Price Chart" (panel_label <$> last (requested_oscillators inds))]
    ∧ yaxis_title fig !! 1%nat = Some "Price"
    ∧ xaxis_title fig = {[rows fig := "Date"]}.
Proof.
  intros Hne inds. destruct data as [|b data]; [done|].
  change (create_technical_chart (b :: data) indicators)
    with (create_technical_chart (b :: data) (Some inds)).
  pose proof (chart_labels_flags b data inds) as H.
  destruct (create_technical_chart (b :: data) (Some inds)).2 as [e|fig]; [done|].
  by exists fig.
Qed.

Lemma chart_labels_witness :
  ∃ fig, (create_technical_chart one_bar (Some ["macd"; "rsi"])).2 = inr fig
    ∧ a_text <$> annotations fig = ["MACD"]
    ∧ yaxis_title fig !! 1%nat = Some "Price"
    ∧ xaxis_title fig = {[rows fig := "Date"]}.
Proof.
  apply (chart_labels one_bar (Some ["macd"; "rsi"])). discriminate.
Defined.

(** ** Bollinger bands at the edges *)

Lemma window_one (s : Pd.Series) (i : nat) (x : float64) :
  s !! i = Some x → Pd.window_at 1 i s = [x].
Proof.
  intros H. unfold Pd.window_at. replace (S i - 1)%nat with i by lia.
  by rewrite (drop_S _ _ _ H).
Qed.

Lemma std_one_value (q : Q) : Pd.std [q] = NaN.
Proof.
  unfold Pd.std, F.of_nat, F.of_Z. simpl length.
  change (inject_Z (Z.of_nat (1 - 1))) with 0. unfold F.div.
  change (Qeq_bool 0 0) with true. cbv iota.
  unfold F.sgn. assert ((0 ?= Pd.sq_dev [q]) = Eq) as ->; [|reflexivity].
  apply Qeq_alt. unfold Pd.sq_dev. simpl. field.
Qed.

(** X18.  With a window of one bar the bands are NaN at every position:
    the sample deviation of a single value does not exist, though the
    middle line does. *)
Theorem bollinger_window_one (data : DataFrame) (num_std : float64)
    (column : bar → float64) (i : nat) :
  (i < length data)%nat →
  boll_upper_band data 1 num_std column !! i = Some NaN
  ∧ boll_lower_band data 1 num_std column !! i = Some NaN.
Proof.
  intros Hi.
  assert (Hstd : boll_std data 1 column !! i = Some NaN).
  { unfold boll_std, Pd.rolling_std.
    rewrite lookup_rolling by (by rewrite length_fmap).
    destruct (decide (1 <= S i)%nat); [|lia].
    destruct (lookup_lt_is_Some_2 (column <$> data) i) as [x Hx];
      [by rewrite length_fmap|].
    rewrite (window_one _ _ _ Hx). f_equal.
    destruct x as [| | |q]; try reflexivity. apply std_one_value. }
  destruct (lookup_lt_is_Some_2 (boll_ma data 1 column) i) as [m Hm];
    [by rewrite length_boll_ma|].
  unfold boll_upper_band, boll_lower_band.
  rewrite !lookup_zip_with, Hm, list_lookup_fmap, Hstd. simpl.
  by destruct m.
Qed.

Lemma bollinger_window_one_witness :
  boll_upper_band three_closes 1 (Fin 2) Close !! 1%nat = Some NaN
  ∧ boll_lower_band three_closes 1 (Fin 2) Close !! 1%nat = Some NaN.
Proof. apply (bollinger_window_one three_closes (Fin 2) Close 1). simpl. lia. Defined.

Lemma Qsum_map_replicate (f : Q → Q) (n : nat) (q : Q) :
  Pd.Qsum (map f (replicate n q)) == inject_Z (Z.of_nat n) * f q.
Proof.
  induction n as [|n IH]; [reflexivity|].
  change (Pd.Qsum (map f (replicate (S n) q)))
    with (f q + Pd.Qsum (map f (replicate n q))).
  rewrite IH, Nat2Z.inj_succ. unfold Z.succ. rewrite inject_Z_plus.
  change (inject_Z 1) with 1. ring.
Qed.

Lemma std_replicate (w : nat) (c : Q) :
  (2 <= w)%nat → Pd.std (replicate w c) = Fin 0.
Proof.
  intros Hw. unfold Pd.std, F.of_nat, F.of_Z. rewrite length_replicate.
  assert (Hpos : 0 < inject_Z (Z.of_nat (w - 1))).
  { change 0 with (inject_Z 0). rewrite <- Zlt_Qlt. lia. }
  assert (Hw' : 0 < inject_Z (Z.of_nat w)).
  { change 0 with (inject_Z 0). rewrite <- Zlt_Qlt. lia. }
  unfold F.div. destruct (Qeq_bool (inject_Z (Z.of_nat (w - 1))) 0) eqn:E.
  { apply Qeq_bool_iff in E. lra. }
  assert (Hz : Qred (Pd.sq_dev (replicate w c) / inject_Z (Z.of_nat (w - 1))) = 0).
  { transitivity (Qred 0); [|reflexivity]. apply Qred_complete.
    unfold Pd.sq_dev. rewrite length_replicate, Qsum_map_replicate, Qsum_replicate.
    field. split; lra. }
  rewrite Hz. reflexivity.
Qed.

Lemma rolling_mean_replicate (w i n : nat) (c : Q) :
  (1 <= w <= S i)%nat → (i < n)%nat →
  Pd.rolling_mean w (replicate n (Fin c)) !! i = Some (Fin (Qred c)).
Proof.
  intros Hw Hi. unfold Pd.rolling_mean.
  rewrite lookup_rolling by (by rewrite length_replicate).
  destruct (decide (w <= S i)%nat); [|lia].
  rewrite window_at_replicate by lia.
  rewrite finite_values_replicate. simpl. f_equal.
  apply mean_replicate. lia.
Qed.

(** X19.  On a series that is flat at [c], with a window of at least two
    bars and a finite multiplier, the upper band, the lower band and the
    middle line are all [c] wherever the window is full. *)
Theorem bollinger_flat (data : DataFrame) (column : bar → float64) (c k : Q)
    (window i : nat) :
  column <$> data = replicate (length data) (Fin c) →
  (2 <= window <= S i)%nat → (i < length data)%nat →
  boll_ma data window column !! i = Some (Fin (Qred c))
  ∧ boll_upper_band data window (Fin k) column !! i = Some (Fin (Qred c))
  ∧ boll_lower_band data window (Fin k) column !! i = Some (Fin (Qred c)).
Proof.
  intros Hflat Hw Hi.
  assert (Hma : boll_ma data window column !! i = Some (Fin (Qred c))).
  { unfold boll_ma. rewrite Hflat. apply rolling_mean_replicate; lia. }
  assert (Hstd : boll_std data window column !! i = Some (Fin 0)).
  { unfold boll_std, Pd.rolling_std.
    rewrite lookup_rolling by (by rewrite length_fmap).
    destruct (decide (window <= S i)%nat); [|lia].
    rewrite Hflat, window_at_replicate by lia.
    rewrite finite_values_replicate. simpl. f_equal. apply std_replicate. lia. }
  split; [exact Hma|].
  unfold boll_upper_band, boll_lower_band.
  rewrite !lookup_zip_with, Hma, list_lookup_fmap, Hstd. simpl.
  split; do 2 f_equal; apply Qred_complete; rewrite !Qred_correct; ring.
Qed.

Lemma bollinger_flat_witness :
  boll_ma flat_bars 2 Close !! 2%nat = Some (Fin 10)
  ∧ boll_upper_band flat_bars 2 (Fin 2) Close !! 2%nat = Some (Fin 10)
  ∧ boll_lower_band flat_bars 2 (Fin 2) Close !! 2%nat = Some (Fin 10).
Proof.
  apply (bollinger_flat flat_bars Close 10 2 2 2); [reflexivity | lia | simpl; lia].
Defined.
